(** * AKWF-js/convert.py: WAV banks to JSON, a shallow embedding

    The script reads the mono 16-bit WAV files of every [AKWF_*] directory,
    normalises the samples to floats, writes one JSON file per bank and a
    manifest.  The embedding follows the script function by function
    ([read_wav], [process_bank], [main]); the pieces of the Python runtime
    the script calls ([wave], [struct], [round], [pathlib], [json], [print],
    [sys.exit]) are modelled first, each next to the behaviour it stands
    for. *)

From Stdlib Require Import ZArith List Strings.String Strings.Ascii Strings.Byte.
From Stdlib Require Import Floats.PrimFloat Floats.FloatOps Floats.SpecFloat.
From Stdlib Require Import Numbers.Cyclic.Int63.Uint63 Numbers.DecimalString.
From stdpp Require Import gmap strings list sorting.

#[local] Set Warnings "-register-all,-inexact-float,-clear-no-such-hyp".

Open Scope Z_scope.

(** ** Exceptions and the effect monad *)

(** What [wave.open(path, 'rb')] can raise. *)
Inductive open_failure : Type :=
  | wave_Error   (* not a RIFF/WAVE file, unknown format, bad header *)
  | EOFError     (* the file ends inside the header *)
  | OSError      (* a directory, no permission, ... *).

(** The exceptions that can travel through the script.  Nothing in
    convert.py has a [try], so a raised exception always reaches the top. *)
Inductive exn : Type :=
  | Open_failed (e : open_failure)
  | struct_error          (* struct.unpack: buffer of the wrong size *)
  | SystemExit (code : Z) (* sys.exit(code) *).

Inductive outcome (A : Type) : Type :=
  | Return (a : A)
  | Raise (e : exn).
Arguments Return {A} a.
Arguments Raise {A} e.

(** [json.dump(obj, f, indent=...)]: the value handed to the encoder and the
    indentation it was asked for ([None] is the compact one-line form). *)
Inductive json : Type :=
  | JFloat (x : float)
  | JString (s : string)
  | JArray (items : list json)
  | JObject (members : list (string * json)).

Record json_dump : Type := Dump { dumped : json; indent : option nat }.

(** What the script can change: the two output streams and the files of
    [output_dir] (the directory of the script itself), by file name. *)
Record world : Type := World {
  stdout : list string;
  stderr : list string;
  output_dir : gmap string json_dump
}.

Definition py (A : Type) : Type := world → outcome A * world.

Definition ret {A} (a : A) : py A := λ w, (Return a, w).

Definition bind {A B} (m : py A) (k : A → py B) : py B :=
  λ w, match m w with
       | (Return a, w') => k a w'
       | (Raise e, w') => (Raise e, w')
       end.

Definition raise {A} (e : exn) : py A := λ w, (Raise e, w).

(** A computation that touches nothing (reading an input file). *)
Definition lift {A} (o : outcome A) : py A := λ w, (o, w).

(** [x ← m; k] and [m;; k] are stdpp's notations for the bind below. *)
#[global] Instance py_ret : MRet py := @ret.
#[global] Instance py_bind : MBind py := λ A B k m, bind m k.

(** [for x in xs: body] with the variables the body assigns threaded as [s];
    an exception in the body leaves the loop at once. *)
Fixpoint for_each {A S} (xs : list A) (body : A → S → py S) (s : S) : py S :=
  match xs with
  | [] => ret s
  | x :: xs' => s' ← body x s; for_each xs' body s'
  end.

(** [print(text)] and [print(text, file=sys.stderr)]. *)
Definition print (text : string) : py unit :=
  λ w, (Return tt, World (stdout w ++ [text]) (stderr w) (output_dir w)).

Definition print_stderr (text : string) : py unit :=
  λ w, (Return tt, World (stdout w) (stderr w ++ [text]) (output_dir w)).

(** [with open(output_dir / name, 'w') as f: json.dump(obj, f, indent=...)]:
    the file is created or replaced.  The output directory is taken to be
    writable. *)
Definition write_json (name : string) (d : json_dump) : py unit :=
  λ w, (Return tt, World (stdout w) (stderr w) (<[name := d]> (output_dir w))).

Definition sys_exit {A} (code : Z) : py A := raise (SystemExit code).

(** Exit status of the interpreter: 0 when [main] returns, the code of a
    [SystemExit], 1 for any other uncaught exception. *)
Definition exit_status {A} (o : outcome A) : Z :=
  match o with
  | Return _ => 0
  | Raise (SystemExit code) => code
  | Raise _ => 1
  end.

(** [str(n)] for a length. *)
Definition str_of_nat (n : nat) : string := NilEmpty.string_of_uint (Nat.to_uint n).

(** ** Floats: [s / 32768.0] and [round(x, ndigits)] *)

(** [float(z)]; exact for [|z| <= 2^53]. *)
Definition float_of_Z (z : Z) : float :=
  if z <? 0 then PrimFloat.opp (PrimFloat.of_uint63 (Uint63.of_Z (- z)))
  else PrimFloat.of_uint63 (Uint63.of_Z z).

(** Nearest integer to [n / d] for [d > 0], ties to the even neighbour. *)
Definition round_half_even (n d : Z) : Z :=
  let q := n / d in
  let r := n mod d in
  if 2 * r <? d then q
  else if d <? 2 * r then q + 1
  else if Z.even q then q else q + 1.

(** The same for [d = 2^k] with [k > 0], on the binary digits of [n]. *)
Definition round_half_even_pow2 (n k : Z) : Z :=
  let q := Z.shiftr n k in
  let r := Z.land n (Z.ones k) in
  let half := Z.shiftl 1 (k - 1) in
  if r <? half then q
  else if half <? r then q + 1
  else if Z.even q then q else q + 1.

(** The decimal [round(x, ndigits)] selects, as a count of units of
    [10^-ndigits]: CPython prints the exact binary value [m * 2^e] of [x]
    with [ndigits] decimals, correctly rounded with ties to even. *)
Definition round_units (x : float) (ndigits : Z) : option Z :=
  match Prim2SF x with
  | S754_finite sg m e =>
      let num := (if sg then Z.neg m else Z.pos m) * 10 ^ ndigits in
      Some (if 0 <=? e then Z.shiftl num e else round_half_even_pow2 num (- e))
  | _ => None
  end.

(** [round(x, ndigits)] on a float: the decimal above read back as the
    nearest double, which the division computes as long as both operands
    are exact ([0 <= ndigits <= 22] and fewer than 2^53 units, as for every
    value the script rounds).  Zeros, infinities and NaN are returned as
    they are; a result of zero keeps the sign of [x]. *)
Definition py_round (x : float) (ndigits : Z) : float :=
  match round_units x ndigits with
  | Some u =>
      if u =? 0 then (if PrimFloat.ltb x 0 then (-0)%float else 0%float)
      else PrimFloat.div (float_of_Z u) (float_of_Z (10 ^ ndigits))
  | None => x
  end.

(** ** [struct.unpack('<{n}h', raw)] *)

(** One little-endian signed 16-bit integer. *)
Definition int16_le (lo hi : byte) : Z :=
  let u := Z.of_N (Byte.to_N lo) + 256 * Z.of_N (Byte.to_N hi) in
  if u <? 32768 then u else u - 65536.

Fixpoint unpack_h (raw : list byte) : list Z :=
  match raw with
  | lo :: hi :: rest => int16_le lo hi :: unpack_h rest
  | _ => []
  end.

(** The buffer must hold exactly [2 * n] bytes, or [struct.error] is raised. *)
Definition struct_unpack_h (n : Z) (raw : list byte) : outcome (list Z) :=
  if Z.of_nat (length raw) =? 2 * n then Return (unpack_h raw)
  else Raise struct_error.

(** ** The [wave] module *)

(** A [Wave_read] object: what [wave.open(path, 'rb')] has taken from the
    header, and the bytes the file really holds in its data chunk.  The
    module refuses headers with no channel or a zero sample width, so both
    are positive; [chunksize] is the size the data chunk header declares. *)
Record Wave_read : Type := {
  nchannels : Z;
  sampwidth : Z;
  chunksize : Z;
  data_chunk : list byte
}.

Definition framesize (wav : Wave_read) : Z := nchannels wav * sampwidth wav.

Definition getnchannels (wav : Wave_read) : Z := nchannels wav.

(** [self._nframes = chunk.chunksize // self._framesize] *)
Definition getnframes (wav : Wave_read) : Z := chunksize wav / framesize wav.

(** [readframes(n)]: at most [n] frames, never past the declared end of the
    chunk, and only what the file holds. *)
Definition readframes (wav : Wave_read) (n : Z) : list byte :=
  take (Z.to_nat (Z.min (n * framesize wav) (chunksize wav))) (data_chunk wav).

(** An entry of a bank directory as [wave.open] sees it: the call raises
    (the entry is no WAVE file, ends inside its header, is a directory, ...)
    or gives a reader. *)
Inductive file : Type :=
  | Unopenable (e : open_failure)
  | Wave (wav : Wave_read).

(** ** [pathlib]: glob, sorted, stem *)

(** [fnmatch] for patterns made of literal characters, [?] and [*] (the two
    patterns of the script have no bracket).  Matching is case-sensitive, as
    on POSIX, and a leading dot is an ordinary character for [Path.glob]. *)
Fixpoint fnmatch (pat name : string) {struct pat} : bool :=
  match pat with
  | EmptyString => match name with EmptyString => true | _ => false end
  | String c pat' =>
      if Ascii.eqb c "*" then
        (fix star (name : string) : bool :=
           fnmatch pat' name ||
           match name with
           | EmptyString => false
           | String _ name' => star name'
           end) name
      else
        match name with
        | EmptyString => false
        | String d name' => (Ascii.eqb c "?" || Ascii.eqb c d) && fnmatch pat' name'
        end
  end.

(** A directory is its entries by name.  [dir.glob(pat)] yields the entries
    whose name matches, in whatever order the system lists them; a path
    inside the directory is represented by its name. *)
Definition glob {E} (pat : string) (dir : gmap string E) : list string :=
  filter (λ name, fnmatch pat name = true) (map_to_list dir).*1.

(** Paths of one directory compare as their names, character by character. *)
Definition path_le (a b : string) : Prop := String.leb a b = true.

#[global] Instance path_le_dec a b : Decision (path_le a b).
Proof. unfold path_le. apply _. Defined.

Definition sorted (paths : list string) : list string := merge_sort path_le paths.

(** [str.rfind(c)] *)
Fixpoint rfind (c : ascii) (s : string) : option nat :=
  match s with
  | EmptyString => None
  | String a s' =>
      match rfind c s' with
      | Some i => Some (S i)
      | None => if Ascii.eqb a c then Some 0%nat else None
      end
  end.

(** [Path.stem]: the name up to its last dot, unless that dot is the first
    or the last character. *)
Definition stem (name : string) : string :=
  match rfind "." name with
  | Some i =>
      if (0 <? i)%nat && (i <? String.length name - 1)%nat
      then substring 0 i name else name
  | None => name
  end.

(** [s.split('/')] *)
Fixpoint split_slash (s : string) : list string :=
  match s with
  | EmptyString => [EmptyString]
  | String c s' =>
      if Ascii.eqb c "/" then EmptyString :: split_slash s'
      else
        match split_slash s' with
        | part :: parts => String c part :: parts
        | [] => [String c EmptyString]
        end
  end.

(** The root of a POSIX path: [//] for exactly two leading slashes, [/] for
    one or for three and more, nothing for a relative path. *)
Definition path_root (s : string) : string :=
  match s with
  | String "/" (String "/" (String "/" _)) => "/"
  | String "/" (String "/" _) => "//"
  | String "/" _ => "/"
  | _ => ""
  end.

(** [str(Path(s))] on POSIX: the root, then the components that are neither
    empty nor [.], joined by single slashes; [.] when nothing is left.  Two
    dots are kept as they are. *)
Definition str_Path (s : string) : string :=
  let parts := filter (λ part, part ≠ "" ∧ part ≠ ".") (split_slash s) in
  let text := path_root s +:+ String.concat "/" parts in
  if String.eqb text "" then "." else text.

(** ** A [dict] with string keys *)

(** Python dicts keep insertion order, and [json.dump] writes the members in
    that order: an assignment to a present key replaces the value where it
    stands, a new key goes to the end. *)
Fixpoint dict_set {V} (d : list (string * V)) (k : string) (v : V) : list (string * V) :=
  match d with
  | [] => [(k, v)]
  | (k', v') :: d' =>
      if String.eqb k' k then (k', v) :: d' else (k', v') :: dict_set d' k v
  end.

(** Truth value of a dict, and of [None] or a string. *)
Definition dict_bool {V} (d : list (string * V)) : bool :=
  match d with [] => false | _ => true end.

Definition name_bool (name : option string) : bool :=
  match name with
  | None => false
  | Some s => negb (String.eqb s "")
  end.

(** ** convert.py *)

(** [round(s / 32768.0, 6)] *)
Definition normalize (s : Z) : float :=
  py_round (PrimFloat.div (float_of_Z s) 32768%float) 6.

Definition read_wav (filepath : file) : outcome (option (list float)) :=
  match filepath with
  | Unopenable e => Raise (Open_failed e)
  | Wave wav =>
      let n_channels := getnchannels wav in
      if negb (n_channels =? 1) then Return None
      else
        let n_frames := getnframes wav in
        let raw_data := readframes wav n_frames in
        match struct_unpack_h n_frames raw_data with
        | Raise e => Raise e
        | Return samples => Return (Some (map normalize samples))
        end
  end.

(** The file found at a globbed path. *)
Definition open_path (dir : gmap string file) (name : string) : file :=
  match dir !! name with
  | Some f => f
  | None => Unopenable OSError
  end.

Definition json_of_waveforms (waveforms : list (string * list float)) : json :=
  JObject (map (λ kv, (kv.1, JArray (map JFloat kv.2))) waveforms).

(** The loop of [process_bank], which fills [waveforms]. *)
Definition collect_waveforms (bank_dir : gmap string file)
  : py (list (string * list float)) :=
  for_each (sorted (glob "*.wav" bank_dir))
    (λ wav_file waveforms,
       let name := stem wav_file in
       samples ← lift (read_wav (open_path bank_dir wav_file));
       match samples with
       | Some samples => mret (dict_set waveforms name samples)
       | None => mret waveforms
       end)
    [].

Definition process_bank (bank_name : string) (bank_dir : gmap string file)
  : py (option string) :=
  waveforms ← collect_waveforms bank_dir;
  (if dict_bool waveforms then
     write_json (bank_name ++ ".json") (Dump (json_of_waveforms waveforms) None);;
     print ("Processed " ++ bank_name ++ ": "
              ++ str_of_nat (length waveforms) ++ " waveforms")
   else mret tt);;
  mret (if dict_bool waveforms then Some bank_name else None).

(** An entry of the working directory: a directory with its files, or
    anything else. *)
Inductive dir_entry : Type :=
  | Not_a_directory
  | Directory (files : gmap string file).

(** The input tree: for a path (as [str] of the [Path]), its entries if it
    is a directory.  The tree
    is the same during the whole run: the script only creates [*.json] files
    in its own directory, which are not among the [*.wav] files it reads, and
    it globs the working directory before it writes anything. *)
Definition filesystem : Type := string → option (gmap string dir_entry).

Definition manifest (bank_names : list string) : json :=
  JObject [("banks", JArray (map JString bank_names))].

(** [Path(sys.argv[1]) if len(sys.argv) > 1 else Path('.')], as the text
    [str(work_dir)] that the script prints and hands to the system. *)
Definition work_dir_of (argv : list string) : string :=
  match argv with
  | _ :: arg :: _ => str_Path arg
  | _ => str_Path "."
  end.

Definition main (argv : list string) (fs : filesystem) : py unit :=
  let work_dir := work_dir_of argv in
  match fs work_dir with
  | None =>
      print_stderr ("Error: Directory " ++ work_dir ++ " not found");;
      sys_exit 1
  | Some entries =>
      let bank_dirs := sorted (glob "AKWF_*" entries) in
      (if bool_decide (bank_dirs = []) then
         print_stderr ("Error: No AKWF_* directories found in " ++ work_dir);;
         sys_exit 1
       else mret tt);;
      bank_names ← for_each bank_dirs
        (λ bank_dir bank_names,
           match entries !! bank_dir with
           | Some (Directory files) =>
               name ← process_bank bank_dir files;
               if name_bool name
               then mret (bank_names ++ [default "" name])
               else mret bank_names
           | _ => mret bank_names
           end)
        [];
      write_json "manifest.json" (Dump (manifest bank_names) (Some 2%nat));;
      print ("Generated " ++ str_of_nat (length bank_names)
               ++ " bank files and manifest.json")
  end.

(** Running the script: the exit status and the world it leaves. *)
Definition run (argv : list string) (fs : filesystem) (w : world) : Z * world :=
  let (o, w') := main argv fs w in (exit_status o, w').

(** * Vocabulary of the statements

    Definitions the theorems below are stated with: views of the loops as
    folds, the worlds the script leaves, and small trees to run it on. *)

(** ** Samples *)

(** A value between [-1.0] and [1.0], both included. *)
Definition in_unit_interval (x : float) : bool :=
  PrimFloat.leb (-1)%float x && PrimFloat.leb x 1%float.

(** The double nearest to [u / 10^6]. *)
Definition micro (u : Z) : float := PrimFloat.div (float_of_Z u) 1000000%float.

(** [f] holds on [lo], [lo + 1], ..., [lo + n - 1]. *)
Fixpoint forall_from (f : Z → bool) (lo : Z) (n : nat) : bool :=
  match n with
  | O => true
  | S n' => f lo && forall_from f (lo + 1) n'
  end.

(** One evaluation per sample value: the decimal [round] selects is the
    one with six places nearest to [s / 32768], ties going to the even last
    digit, and the float read back from it is in the unit interval. *)
Definition sample_ok (s : Z) : bool :=
  let u := round_half_even (s * 1000000) 32768 in
  in_unit_interval (micro u) &&
  ((s =? 0) ||
   match round_units (PrimFloat.div (float_of_Z s) 32768%float) 6 with
   | Some u' => (u' =? u) && negb (u' =? 0)
   | None => false
   end).

(** ** The loops as folds *)

(** A loop whose body leaves the world alone, as a fold over outcomes. *)
Fixpoint fold_outcome {A S} (g : A → S → outcome S) (xs : list A) (s : S)
  : outcome S :=
  match xs with
  | [] => Return s
  | x :: xs' =>
      match g x s with
      | Return s' => fold_outcome g xs' s'
      | Raise e => Raise e
      end
  end.

(** One turn of the loop of [process_bank]. *)
Definition add_file (bank_dir : gmap string file) (wav_file : string)
    (waveforms : list (string * list float)) : outcome (list (string * list float)) :=
  match read_wav (open_path bank_dir wav_file) with
  | Raise e => Raise e
  | Return None => Return waveforms
  | Return (Some samples) => Return (dict_set waveforms (stem wav_file) samples)
  end.

(** The output mapping of a bank, or the exception that stopped the loop. *)
Definition waveforms_of (bank_dir : gmap string file)
  : outcome (list (string * list float)) :=
  (collect_waveforms bank_dir (World [] [] ∅)).1.

(** The file is read and gives samples (it is neither skipped nor bad). *)
Definition included (bank_dir : gmap string file) (name : string) : bool :=
  match read_wav (open_path bank_dir name) with
  | Return (Some _) => true
  | _ => false
  end.

(** The keys of a dict after an assignment to the key [k]. *)
Definition insert_key (keys : list string) (k : string) : list string :=
  if bool_decide (k ∈ keys) then keys else keys ++ [k].

(** The order in which a sequence of assignments leaves the keys: each key
    where it was first assigned. *)
Definition insertion_order (ks : list string) : list string :=
  fold_left insert_key ks [].

(** What the loop of [main] finds under a globbed entry: the output mapping
    of a directory; an entry that is not a directory is passed over, like a
    bank with an empty mapping. *)
Definition bank_outcome (entries : gmap string dir_entry) (bank : string)
  : outcome (list (string * list float)) :=
  match entries !! bank with
  | Some (Directory files) => waveforms_of files
  | _ => Return []
  end.

(** The bank ends up with a non-empty output mapping. *)
Definition produces (entries : gmap string dir_entry) (bank : string) : bool :=
  match bank_outcome entries bank with
  | Return (_ :: _) => true
  | _ => false
  end.

(** The body of the loop of [main], under a name. *)
Definition main_loop_body (entries : gmap string dir_entry)
    (bank_dir : string) (bank_names : list string) : py (list string) :=
  match entries !! bank_dir with
  | Some (Directory files) =>
      name ← process_bank bank_dir files;
      if name_bool name
      then mret (bank_names ++ [default "" name])
      else mret bank_names
  | _ => mret bank_names
  end.

(** ** Worlds the script leaves *)

(** The world after a bank with the non-empty mapping [waveforms]. *)
Definition bank_written (bank_name : string)
    (waveforms : list (string * list float)) (w : world) : world :=
  World
    (stdout w ++ ["Processed " +:+ bank_name +:+ ": "
                   +:+ str_of_nat (length waveforms) +:+ " waveforms"])
    (stderr w)
    (<[bank_name +:+ ".json" := Dump (json_of_waveforms waveforms) None]>
       (output_dir w)).

(** The loop of [main], bank by bank. *)
Fixpoint run_banks (entries : gmap string dir_entry) (banks : list string)
    (bank_names : list string) (w : world) : outcome (list string) * world :=
  match banks with
  | [] => (Return bank_names, w)
  | bank :: banks' =>
      match bank_outcome entries bank with
      | Raise e => (Raise e, w)
      | Return [] => run_banks entries banks' bank_names w
      | Return waveforms =>
          run_banks entries banks' (bank_names ++ [bank])
            (bank_written bank waveforms w)
      end
  end.

(** The world after the loop, when no bank raises. *)
Fixpoint banks_written (entries : gmap string dir_entry) (banks : list string)
    (w : world) : world :=
  match banks with
  | [] => w
  | bank :: banks' =>
      match bank_outcome entries bank with
      | Return (kv :: waveforms) =>
          banks_written entries banks' (bank_written bank (kv :: waveforms) w)
      | _ => banks_written entries banks' w
      end
  end.

(** The world [main] leaves after a loop that went through. *)
Definition finished (bank_names : list string) (w : world) : world :=
  World
    (stdout w ++ ["Generated " +:+ str_of_nat (length bank_names)
                   +:+ " bank files and manifest.json"])
    (stderr w)
    (<["manifest.json" := Dump (manifest bank_names) (Some 2%nat)]> (output_dir w)).

(** The world after one of the two fatal reports. *)
Definition reported (text : string) (w : world) : world :=
  World (stdout w) (stderr w ++ [text]) (output_dir w).

(** ** Reads that fail *)

(** Exceptions that come from reading a sample file; they end the
    interpreter with status 1. *)
Definition read_error (e : exn) : Prop :=
  match e with
  | SystemExit _ => False
  | _ => True
  end.

(** No sample file of a bank directory makes [read_wav] raise. *)
Definition reads_cleanly (entries : gmap string dir_entry) : Prop :=
  ∀ bank files name f,
    entries !! bank = Some (Directory files) → fnmatch "AKWF_*" bank = true →
    files !! name = Some f → fnmatch "*.wav" name = true →
    ∃ samples, read_wav f = Return samples.

(** [reads_cleanly] as a check that can be run. *)
Definition reads_cleanlyb (entries : gmap string dir_entry) : bool :=
  forallb
    (λ be : string * dir_entry,
       match be.2 with
       | Directory files =>
           negb (fnmatch "AKWF_*" be.1) ||
           forallb
             (λ nf : string * file,
                negb (fnmatch "*.wav" nf.1) ||
                match read_wav nf.2 with Return _ => true | Raise _ => false end)
             (map_to_list files)
       | Not_a_directory => true
       end)
    (map_to_list entries).

(** A file [read_wav] cannot turn into samples: it does not open, or it is
    mono and [readframes] does not hand over two bytes per frame. *)
Definition unreadable (f : file) : Prop :=
  match f with
  | Unopenable _ => True
  | Wave wav =>
      getnchannels wav = 1
      ∧ Z.of_nat (length (readframes wav (getnframes wav))) ≠ 2 * getnframes wav
  end.

(** ** Sample files and trees *)

Definition two_frames : Wave_read :=
  {| nchannels := 1; sampwidth := 2; chunksize := 4;
     data_chunk := [xff; x7f; x00; x80] |}.

Definition stereo_file : Wave_read :=
  {| nchannels := 2; sampwidth := 2; chunksize := 4;
     data_chunk := [x00; x80; x00; x80] |}.

(** A mono file with one byte per sample. *)
Definition eight_bit : Wave_read :=
  {| nchannels := 1; sampwidth := 1; chunksize := 2; data_chunk := [x80; x80] |}.

(** A 32-bit mono file cut short: the header declares two frames (8 bytes),
    the file holds the first one only. *)
Definition truncated32 : Wave_read :=
  {| nchannels := 1; sampwidth := 4; chunksize := 8;
     data_chunk := [x00; x00; x00; x40] |}.

(** An 8-bit mono file with no frame at all. *)
Definition empty8 : Wave_read :=
  {| nchannels := 1; sampwidth := 1; chunksize := 0; data_chunk := [] |}.

(** [AKWF_test/a.wav] is mono with the two extreme samples, [AKWF_test/b.wav]
    is stereo; [AKWF_quiet] has a stereo file only; [AKWF_notes.txt] is a
    regular file. *)
Definition example_bank : gmap string file :=
  <["a.wav" := Wave two_frames]> {["b.wav" := Wave stereo_file]}.

Definition quiet_bank : gmap string file := {["b.wav" := Wave stereo_file]}.

Definition ordered_bank : gmap string file :=
  <["b.wav" := Wave two_frames]>
    (<["a.wav" := Wave two_frames]> {["c.wav" := Wave stereo_file]}).

Definition example_root : gmap string dir_entry :=
  <["AKWF_test" := Directory example_bank]>
    (<["AKWF_quiet" := Directory quiet_bank]>
       {["AKWF_notes.txt" := Not_a_directory]}).

(** A root whose only [AKWF_*] entries are a regular file and a bank of
    stereo files. *)
Definition quiet_root : gmap string dir_entry :=
  <["AKWF_quiet" := Directory quiet_bank]> {["AKWF_notes.txt" := Not_a_directory]}.

(** A root with one regular file named like a bank, and no directory. *)
Definition notes_root : gmap string dir_entry :=
  {["AKWF_notes.txt" := Not_a_directory]}.

Definition bad_root : gmap string dir_entry :=
  {["AKWF_bad" := Directory {["x.wav" := Wave eight_bit]}]}.

Definition example_fs : filesystem :=
  λ path,
    if String.eqb path "waves" then Some example_root
    else if String.eqb path "quiet" then Some quiet_root
    else if String.eqb path "notes" then Some notes_root
    else if String.eqb path "bad" then Some bad_root
    else if String.eqb path "." then Some ∅
    else None.

Definition fresh : world := World [] [] ∅.

(** ** Reading the values back *)

(** The integer nearest to [x * 2^k] (ties to even), from the exact binary
    value of [x]. *)
Definition nearest_scaled (x : float) (k : Z) : Z :=
  match Prim2SF x with
  | S754_finite sg m e =>
      let n := if sg then Z.neg m else Z.pos m in
      if 0 <=? e + k then Z.shiftl n (e + k)
      else round_half_even_pow2 n (- (e + k))
  | _ => 0
  end.

(** What a reader of the JSON gets back from a value: [round(x * 32768)]. *)
Definition sample_of (x : float) : Z := nearest_scaled x 15.

(** One evaluation per sample value, on the float [normalize] gives. *)
Definition sample_recovered (s : Z) : bool :=
  sample_of (micro (round_half_even (s * 1000000) 32768)) =? s.

(** ** What a run writes *)

(** The files the loop of [main] writes, in order, up to the first bank that
    raises. *)
Fixpoint bank_writes (entries : gmap string dir_entry) (banks : list string)
  : list (string * json_dump) :=
  match banks with
  | [] => []
  | bank :: banks' =>
      match bank_outcome entries bank with
      | Raise _ => []
      | Return [] => bank_writes entries banks'
      | Return waveforms =>
          (bank +:+ ".json", Dump (json_of_waveforms waveforms) None)
            :: bank_writes entries banks'
      end
  end.

(** Writing files one after the other. *)
Definition apply_writes (writes : list (string * json_dump))
    (dir : gmap string json_dump) : gmap string json_dump :=
  fold_left (λ dir kd, <[kd.1 := kd.2]> dir) writes dir.

(** The progress line of a bank. *)
Definition progress_line (entries : gmap string dir_entry) (bank : string) : string :=
  match bank_outcome entries bank with
  | Return waveforms =>
      "Processed " +:+ bank +:+ ": "
        +:+ str_of_nat (length waveforms) +:+ " waveforms"
  | Raise _ => ""
  end.

(** An output directory with a file of some earlier use. *)
Definition used : world :=
  World [] [] {["index.json" := Dump (JString "kept") None]}.

(** A mono 16-bit file of three frames of silence. *)
Definition silence : Wave_read :=
  {| nchannels := 1; sampwidth := 2; chunksize := 6;
     data_chunk := [x00; x00; x00; x00; x00; x00] |}.

(** A mono 16-bit file that declares two frames and holds three bytes. *)
Definition cut16 : Wave_read :=
  {| nchannels := 1; sampwidth := 2; chunksize := 4;
     data_chunk := [x00; x01; x02] |}.

(** A bank with a mono file of no frame at all. *)
Definition hollow_bank : gmap string file :=
  {["none.wav" := Wave {| nchannels := 1; sampwidth := 2; chunksize := 0;
                          data_chunk := [] |}]}.

(** * Properties *)

(** ** Samples and their normalisation *)

Lemma forall_from_spec f n : ∀ lo z,
  forall_from f lo n = true → lo ≤ z < lo + Z.of_nat n → f z = true.
Proof.
  induction n as [|n IH]; intros lo z Hall Hz; [lia|].
  simpl in Hall. apply andb_true_iff in Hall as [Hlo Hrest].
  destruct (decide (z = lo)) as [->|Hne]; [done|].
  apply (IH (lo + 1)); [done|lia].
Qed.

Lemma int16_le_range lo hi : -32768 ≤ int16_le lo hi ≤ 32767.
Proof.
  unfold int16_le.
  pose proof (Byte.to_N_bounded lo). pose proof (Byte.to_N_bounded hi).
  case_match; rewrite ?Z.ltb_lt, ?Z.ltb_ge in *; lia.
Qed.

Lemma all_samples_ok s : -32768 ≤ s ≤ 32767 → sample_ok s = true.
Proof.
  intros Hs.
  apply (forall_from_spec sample_ok (Z.to_nat 65536) (-32768)); [|lia].
  vm_cast_no_check (eq_refl true).
Qed.

(** The float computation agrees with exact arithmetic on every 16-bit
    sample: [normalize s] is the double nearest to the decimal with six
    places nearest to [s / 32768]. *)
Lemma normalize_exact s :
  -32768 ≤ s ≤ 32767 →
  normalize s = micro (round_half_even (s * 1000000) 32768).
Proof.
  intros Hs. pose proof (all_samples_ok s Hs) as Hok.
  unfold sample_ok in Hok. apply andb_true_iff in Hok as [_ Hu].
  apply orb_true_iff in Hu as [->%Z.eqb_eq|Hu].
  { reflexivity. }
  unfold normalize, py_round.
  destruct (round_units _ 6) as [u|]; [|done].
  apply andb_true_iff in Hu as [->%Z.eqb_eq Hnz].
  apply negb_true_iff in Hnz. rewrite Hnz. reflexivity.
Qed.

(** Every 16-bit sample is sent into [[-1.0, 1.0]]. *)
Lemma normalize_in_unit_interval s :
  -32768 ≤ s ≤ 32767 → in_unit_interval (normalize s) = true.
Proof.
  intros Hs. rewrite (normalize_exact s Hs).
  pose proof (all_samples_ok s Hs) as Hok.
  unfold sample_ok in Hok. by apply andb_true_iff in Hok as [? _].
Qed.

Lemma round_half_even_pow2_spec n k :
  0 < k → round_half_even_pow2 n k = round_half_even n (2 ^ k).
Proof.
  intros Hk. unfold round_half_even_pow2, round_half_even.
  rewrite Z.shiftr_div_pow2, Z.land_ones, Z.shiftl_1_l by lia.
  assert (2 ^ k = 2 * 2 ^ (k - 1)) as Hpow.
  { rewrite <- Z.pow_succ_r by lia. f_equal. lia. }
  set (r := n mod 2 ^ k). set (h := 2 ^ (k - 1)).
  assert ((r <? h) = (2 * r <? 2 ^ k)) as ->.
  { rewrite Hpow. destruct (Z.ltb_spec r h), (Z.ltb_spec (2 * r) (2 * h)); lia. }
  assert ((h <? r) = (2 ^ k <? 2 * r)) as ->.
  { rewrite Hpow. destruct (Z.ltb_spec h r), (Z.ltb_spec (2 * h) (2 * r)); lia. }
  reflexivity.
Qed.

(** ** [struct.unpack] *)

Lemma unpack_h_length n : ∀ raw,
  length raw = (2 * n)%nat → length (unpack_h raw) = n.
Proof.
  induction n as [|n IH]; intros raw Hlen.
  - by destruct raw.
  - destruct raw as [|lo [|hi rest]]; simpl in Hlen; try lia.
    simpl. f_equal. apply IH. lia.
Qed.

Lemma unpack_h_lookup i : ∀ raw lo hi,
  raw !! (2 * i)%nat = Some lo → raw !! (2 * i + 1)%nat = Some hi →
  unpack_h raw !! i = Some (int16_le lo hi).
Proof.
  induction i as [|i IH]; intros raw lo hi Hlo Hhi.
  - destruct raw as [|a [|b rest]]; simpl in *; congruence.
  - replace (2 * S i)%nat with (S (S (2 * i))) in Hlo by lia.
    replace (2 * S i + 1)%nat with (S (S (2 * i + 1))) in Hhi by lia.
    destruct raw as [|a [|b rest]]; simpl in *; try done.
    by apply IH.
Qed.

Lemma unpack_h_range raw : Forall (λ s, -32768 ≤ s ≤ 32767) (unpack_h raw).
Proof.
  induction raw as [raw IH] using (induction_ltof1 _ length).
  destruct raw as [|lo [|hi rest]]; simpl; try constructor.
  - apply int16_le_range.
  - apply IH. unfold ltof. simpl. lia.
Qed.

(** ** [read_wav] *)

(** What [readframes] hands over for a whole mono 16-bit file. *)
Lemma readframes_mono16 wav :
  nchannels wav = 1 → sampwidth wav = 2 →
  0 ≤ chunksize wav →
  2 * getnframes wav ≤ Z.of_nat (length (data_chunk wav)) →
  readframes wav (getnframes wav)
    = take (2 * Z.to_nat (getnframes wav)) (data_chunk wav)
  ∧ length (readframes wav (getnframes wav)) = (2 * Z.to_nat (getnframes wav))%nat.
Proof.
  intros Hc Hs Hsize Hdata. unfold readframes, getnframes, framesize in *.
  rewrite Hc, Hs in *. change (1 * 2) with 2 in *.
  pose proof (Z.mul_div_le (chunksize wav) 2 ltac:(lia)) as Hle.
  assert (0 ≤ chunksize wav / 2) by (apply Z.div_pos; lia).
  rewrite Z.min_l by lia.
  replace (Z.to_nat (chunksize wav / 2 * 2))
    with (2 * Z.to_nat (chunksize wav / 2))%nat by lia.
  split; [done|]. rewrite length_take. lia.
Qed.

(** C1: a mono 16-bit file with all its [n] frames present is read as [n]
    floats, in frame order: the value at index [i] is the little-endian
    signed sample of bytes [2i] and [2i+1] divided by 32768.0 and rounded to
    six decimals (the double nearest to the six-place decimal nearest to
    [sample / 32768]), and every value lies in [[-1.0, 1.0]]. *)
Theorem read_wav_mono16 (wav : Wave_read) :
  nchannels wav = 1 → sampwidth wav = 2 →
  0 ≤ chunksize wav →
  2 * getnframes wav ≤ Z.of_nat (length (data_chunk wav)) →
  ∃ out,
    read_wav (Wave wav) = Return (Some out)
    ∧ Z.of_nat (length out) = getnframes wav
    ∧ (∀ i : nat, Z.of_nat i < getnframes wav →
         ∃ lo hi,
           data_chunk wav !! (2 * i)%nat = Some lo
           ∧ data_chunk wav !! (2 * i + 1)%nat = Some hi
           ∧ out !! i = Some (normalize (int16_le lo hi))
           ∧ normalize (int16_le lo hi)
               = micro (round_half_even (int16_le lo hi * 1000000) 32768))
    ∧ Forall (λ x, in_unit_interval x = true) out.
Proof.
  intros Hc Hs Hsize Hdata.
  destruct (readframes_mono16 wav Hc Hs Hsize Hdata) as [Hraw Hlen].
  assert (0 ≤ getnframes wav) as Hn.
  { unfold getnframes, framesize. rewrite Hc, Hs. apply Z.div_pos; lia. }
  set (n := Z.to_nat (getnframes wav)) in *.
  exists (map normalize (unpack_h (readframes wav (getnframes wav)))).
  split; [|split; [|split]].
  - unfold read_wav, getnchannels, struct_unpack_h. rewrite Hc. simpl.
    rewrite Hlen. replace (Z.of_nat (2 * n) =? 2 * getnframes wav) with true; [done|].
    symmetry. apply Z.eqb_eq. lia.
  - rewrite length_map, (unpack_h_length n) by done. lia.
  - intros i Hi.
    assert (2 * i + 1 < length (data_chunk wav))%nat as Hin by lia.
    destruct (lookup_lt_is_Some_2 (data_chunk wav) (2 * i)) as [lo Hlo]; [lia|].
    destruct (lookup_lt_is_Some_2 (data_chunk wav) (2 * i + 1)) as [hi Hhi]; [lia|].
    exists lo, hi. split; [done|]. split; [done|]. split.
    + rewrite list_lookup_fmap, (unpack_h_lookup i _ lo hi); [done| |].
      * rewrite Hraw, lookup_take_lt by lia. done.
      * rewrite Hraw, lookup_take_lt by lia. done.
    + apply normalize_exact, int16_le_range.
  - apply Forall_fmap. eapply Forall_impl; [apply unpack_h_range|].
    intros s Hs'. by apply normalize_in_unit_interval.
Qed.

Lemma read_wav_mono16_witness :
  ∃ out, read_wav (Wave two_frames) = Return (Some out)
         ∧ out = [0.999969%float; (-1)%float].
Proof.
  destruct (read_wav_mono16 two_frames) as (out & Hread & _);
    [reflexivity|reflexivity|vm_compute; discriminate|vm_compute; discriminate|].
  exists out. split; [exact Hread|].
  vm_compute in Hread. congruence.
Defined.

(** C8: the two ends of the sample range. *)
Theorem normalize_boundaries :
  normalize 32767 = 0.999969%float ∧ normalize (-32768) = (-1)%float
  ∧ round_units (PrimFloat.div (float_of_Z 32767) 32768%float) 6 = Some 999969.
Proof. repeat split; vm_compute; reflexivity. Qed.

(** ** The order on paths and [sorted] *)

Lemma string_leb_cons a s b t :
  String.leb (String a s) (String b t) = true
  ↔ (N_of_ascii a < N_of_ascii b)%N ∨ (a = b ∧ String.leb s t = true).
Proof.
  unfold String.leb. simpl. unfold Ascii.compare.
  destruct (N.compare_spec (N_of_ascii a) (N_of_ascii b)) as [Heq|Hlt|Hgt].
  - assert (a = b) as ->.
    { rewrite <- (ascii_N_embedding a), <- (ascii_N_embedding b). by f_equal. }
    split; [by right|]. intros [?|[_ ?]]; [lia|done].
  - split; [by left|done].
  - split; [done|]. intros [?|[-> _]]; lia.
Qed.

#[global] Instance path_le_total : Total path_le.
Proof. intros a b. apply String.leb_total. Qed.

#[global] Instance path_le_antisymm : AntiSymm (=) path_le.
Proof. intros a b. apply String.leb_antisym. Qed.

#[global] Instance path_le_trans : Transitive path_le.
Proof.
  unfold path_le. intros a. induction a as [|x a IH]; intros b c Hab Hbc.
  - by destruct c.
  - destruct b as [|y b]; [done|]. destruct c as [|z c]; [done|].
    apply string_leb_cons in Hab, Hbc. apply string_leb_cons.
    destruct Hab as [?|[-> Hab]], Hbc as [?|[-> Hbc]]; eauto with lia.
Qed.

Lemma StronglySorted_filter {A} (R : relation A) (P : A → Prop)
    `{∀ x, Decision (P x)} l :
  StronglySorted R l → StronglySorted R (filter P l).
Proof.
  induction 1 as [|x l Hl IH Hx]; [constructor|].
  rewrite filter_cons. case_decide; [|done].
  constructor; [done|]. apply Forall_forall. intros y [_ Hy]%list_elem_of_filter.
  by eapply Forall_forall in Hx.
Qed.

Lemma sorted_StronglySorted l : StronglySorted path_le (sorted l).
Proof. apply StronglySorted_merge_sort; apply _. Qed.

Lemma sorted_Permutation l : sorted l ≡ₚ l.
Proof. apply merge_sort_Permutation. Qed.

Lemma elem_of_sorted l x : x ∈ sorted l ↔ x ∈ l.
Proof. by rewrite sorted_Permutation. Qed.

(** [sorted] does not depend on the order in which the system lists the
    entries: a sorted list with the same elements is the result. *)
Lemma sorted_unique l l' :
  StronglySorted path_le l' → l ≡ₚ l' → sorted l = l'.
Proof.
  intros Hs Hp. apply (StronglySorted_unique path_le); [apply sorted_StronglySorted|done|].
  by rewrite sorted_Permutation.
Qed.

(** ** [glob] *)

Lemma elem_of_glob {E} pat (dir : gmap string E) name :
  name ∈ glob pat dir ↔ fnmatch pat name = true ∧ is_Some (dir !! name).
Proof.
  unfold glob. rewrite list_elem_of_filter, list_elem_of_fmap.
  split.
  - intros [? ([k x] & -> & Hin%elem_of_map_to_list)]. eauto.
  - intros [? [x Hx]]. split; [done|]. exists (name, x).
    split; [done|]. by apply elem_of_map_to_list.
Qed.

Lemma NoDup_glob {E} pat (dir : gmap string E) : NoDup (glob pat dir).
Proof. apply NoDup_filter, NoDup_fst_map_to_list. Qed.

Lemma NoDup_sorted_glob {E} pat (dir : gmap string E) :
  NoDup (sorted (glob pat dir)).
Proof. rewrite sorted_Permutation. apply NoDup_glob. Qed.

(** The sorted enumeration is determined by the names present. *)
Lemma sorted_glob_unique {E} pat (dir : gmap string E) l :
  StronglySorted path_le l → NoDup l →
  (∀ name, name ∈ l ↔ fnmatch pat name = true ∧ is_Some (dir !! name)) →
  sorted (glob pat dir) = l.
Proof.
  intros Hs Hnd Hl. apply sorted_unique; [done|].
  apply NoDup_Permutation; [apply NoDup_glob|done|].
  intros name. by rewrite elem_of_glob, Hl.
Qed.

Lemma sorted_glob_ext {E1 E2} pat (d1 : gmap string E1) (d2 : gmap string E2) :
  (∀ name, fnmatch pat name = true → is_Some (d1 !! name) ↔ is_Some (d2 !! name)) →
  sorted (glob pat d1) = sorted (glob pat d2).
Proof.
  intros Hdom. apply sorted_glob_unique.
  - apply sorted_StronglySorted.
  - apply NoDup_sorted_glob.
  - intros name. rewrite elem_of_sorted, elem_of_glob. naive_solver.
Qed.

Lemma sorted_glob_delete {E} pat (dir : gmap string E) k :
  sorted (glob pat (delete k dir)) = filter (λ name, name ≠ k) (sorted (glob pat dir)).
Proof.
  apply sorted_glob_unique.
  - apply StronglySorted_filter, sorted_StronglySorted.
  - apply NoDup_filter, NoDup_sorted_glob.
  - intros name. rewrite list_elem_of_filter, elem_of_sorted, elem_of_glob.
    destruct (decide (name = k)) as [->|Hne].
    + rewrite lookup_delete_eq. split; [naive_solver|]. intros [_ []]. done.
    + rewrite lookup_delete_ne by done. naive_solver.
Qed.

(** The two patterns of the script. *)
Lemma fnmatch_star name : fnmatch "*" name = true.
Proof.
  induction name as [|c name IH]; [done|].
  change (fnmatch "*" (String c name))
    with (fnmatch "" (String c name) || fnmatch "*" name).
  by rewrite IH, orb_true_r.
Qed.

Lemma fnmatch_literal c pat d name :
  Ascii.eqb c "*" = false → Ascii.eqb c "?" = false →
  fnmatch (String c pat) (String d name) = Ascii.eqb c d && fnmatch pat name.
Proof. intros Hstar Hany. cbn [fnmatch]. by rewrite Hstar, Hany. Qed.

Lemma fnmatch_literal_nil c pat :
  Ascii.eqb c "*" = false → fnmatch (String c pat) "" = false.
Proof. intros Hstar. cbn [fnmatch]. by rewrite Hstar. Qed.

Lemma fnmatch_star_cons pat c name :
  fnmatch (String "*" pat) (String c name)
  = fnmatch pat (String c name) || fnmatch (String "*" pat) name.
Proof. reflexivity. Qed.

Ltac match_literal H name :=
  destruct name as [|? name];
  [by rewrite fnmatch_literal_nil in H|];
  rewrite fnmatch_literal in H by done;
  apply andb_true_iff in H as [<-%Ascii.eqb_eq H].

Lemma fnmatch_AKWF name :
  fnmatch "AKWF_*" name = true ↔ ∃ rest, name = "AKWF_" +:+ rest.
Proof.
  split.
  - intros H. do 5 match_literal H name. by exists name.
  - intros [rest ->]. apply (fnmatch_star rest).
Qed.

Lemma fnmatch_wav name :
  fnmatch "*.wav" name = true ↔ ∃ base, name = base +:+ ".wav".
Proof.
  induction name as [|c name IH].
  - split; [done|]. intros [[|] ?]; done.
  - rewrite fnmatch_star_cons, orb_true_iff, IH. split.
    + intros [H|[base ->]].
      * exists "". set (n := String c name) in *. clearbody n.
        do 4 match_literal H n. by destruct n.
      * by exists (String c base).
    + intros [[|c' base] Heq]; simpl in Heq.
      * left. by rewrite Heq.
      * right. injection Heq as -> ->. by exists base.
Qed.

Lemma fnmatch_wav_intro base name :
  name = base +:+ ".wav" → fnmatch "*.wav" name = true.
Proof. intros ->. apply fnmatch_wav. by exists base. Qed.

(** ** Loops *)

Ltac unfold_py :=
  unfold mbind, py_bind, bind, mret, py_ret, ret, lift, raise, sys_exit,
    print, print_stderr, write_json in *.

Lemma for_each_lift {A S} (body : A → S → py S) (g : A → S → outcome S) xs :
  (∀ x s w, body x s w = (g x s, w)) →
  ∀ s w, for_each xs body s w = (fold_outcome g xs s, w).
Proof.
  intros Hbody. induction xs as [|x xs IH]; intros s w; [done|].
  simpl. unfold_py. rewrite Hbody. destruct (g x s); [apply IH|done].
Qed.

Lemma fold_outcome_ext {A S} (g g' : A → S → outcome S) xs :
  (∀ x s, x ∈ xs → g x s = g' x s) →
  ∀ s, fold_outcome g xs s = fold_outcome g' xs s.
Proof.
  induction xs as [|x xs IH]; intros Hg s; [done|].
  simpl. rewrite <- Hg by left. destruct (g x s); [|done].
  apply IH. intros. apply Hg. by right.
Qed.

(** ** [process_bank] *)

Lemma collect_waveforms_fold bank_dir w :
  collect_waveforms bank_dir w
  = (fold_outcome (add_file bank_dir) (sorted (glob "*.wav" bank_dir)) [], w).
Proof.
  unfold collect_waveforms. apply for_each_lift.
  intros x s w'. unfold add_file. unfold_py.
  by destruct (read_wav _) as [[?|]|].
Qed.

Lemma waveforms_of_fold bank_dir :
  waveforms_of bank_dir
  = fold_outcome (add_file bank_dir) (sorted (glob "*.wav" bank_dir)) [].
Proof. unfold waveforms_of. by rewrite collect_waveforms_fold. Qed.

Lemma collect_waveforms_eq bank_dir w :
  collect_waveforms bank_dir w = (waveforms_of bank_dir, w).
Proof. by rewrite waveforms_of_fold, collect_waveforms_fold. Qed.

Lemma process_bank_eq bank_name bank_dir w :
  process_bank bank_name bank_dir w =
    match waveforms_of bank_dir with
    | Raise e => (Raise e, w)
    | Return [] => (Return None, w)
    | Return waveforms => (Return (Some bank_name), bank_written bank_name waveforms w)
    end.
Proof.
  unfold process_bank. unfold_py. rewrite collect_waveforms_eq.
  destruct (waveforms_of bank_dir) as [[|kv wf]|e]; done.
Qed.

Lemma open_path_delete_ne bank_dir k name :
  name ≠ k → open_path (delete k bank_dir) name = open_path bank_dir name.
Proof. intros. unfold open_path. by rewrite lookup_delete_ne. Qed.

Lemma open_path_insert_ne bank_dir k f name :
  name ≠ k → open_path (<[k := f]> bank_dir) name = open_path bank_dir name.
Proof. intros. unfold open_path. by rewrite lookup_insert_ne. Qed.

(** A file whose turn changes nothing can be taken out of the directory. *)
Lemma waveforms_of_delete bank_dir name :
  (∀ waveforms, add_file bank_dir name waveforms = Return waveforms) →
  waveforms_of (delete name bank_dir) = waveforms_of bank_dir.
Proof.
  intros Hskip. rewrite !waveforms_of_fold, sorted_glob_delete.
  generalize (sorted (glob "*.wav" bank_dir)) ([] : list (string * list float)).
  intros files. induction files as [|x files IH]; intros wf; [done|].
  rewrite filter_cons. case_decide as Hx.
  - simpl. unfold add_file at 1 3. rewrite open_path_delete_ne by done.
    destruct (read_wav _) as [[?|]|]; auto.
  - subst x. simpl. rewrite Hskip. apply IH.
Qed.

(** C2: a file with a channel count other than 1 is skipped: [read_wav]
    returns [None] without raising, and the bank's output mapping, and all
    [process_bank] does, are what they are without the file. *)
Theorem stereo_skipped (bank_dir : gmap string file) name wav :
  bank_dir !! name = Some (Wave wav) →
  getnchannels wav ≠ 1 →
  read_wav (Wave wav) = Return None
  ∧ waveforms_of bank_dir = waveforms_of (delete name bank_dir)
  ∧ ∀ bank_name w,
      process_bank bank_name bank_dir w
      = process_bank bank_name (delete name bank_dir) w.
Proof.
  intros Hname Hch.
  assert (read_wav (Wave wav) = Return None) as Hread.
  { unfold read_wav. by apply Z.eqb_neq in Hch as ->. }
  assert (waveforms_of (delete name bank_dir) = waveforms_of bank_dir) as Hwf.
  { apply waveforms_of_delete. intros wf. unfold add_file, open_path.
    by rewrite Hname, Hread. }
  split; [done|]. split; [done|].
  intros bank_name w. by rewrite !process_bank_eq, Hwf.
Qed.

Lemma stereo_skipped_witness :
  read_wav (Wave stereo_file) = Return None
  ∧ waveforms_of {["b.wav" := Wave stereo_file]} = waveforms_of ∅.
Proof.
  destruct (stereo_skipped {["b.wav" := Wave stereo_file]} "b.wav" stereo_file)
    as (Hread & Hwf & _); [reflexivity|vm_compute; discriminate|].
  split; [exact Hread|]. rewrite Hwf. reflexivity.
Defined.

(** C9: a name that does not end in [.wav] is not among the files the loop
    opens, and whatever lies under it (readable or not) changes nothing of
    what [process_bank] does. *)
Theorem only_wav_files_read (bank_dir : gmap string file) name f :
  ¬ (∃ base, name = base +:+ ".wav") →
  (name ∉ sorted (glob "*.wav" (<[name := f]> bank_dir)))
  ∧ waveforms_of (<[name := f]> bank_dir) = waveforms_of (delete name bank_dir)
  ∧ ∀ bank_name w,
      process_bank bank_name (<[name := f]> bank_dir) w
      = process_bank bank_name (delete name bank_dir) w.
Proof.
  intros Hname. rewrite <- fnmatch_wav in Hname.
  assert (name ∉ sorted (glob "*.wav" (<[name := f]> bank_dir))) as Hnotin.
  { rewrite elem_of_sorted, elem_of_glob. naive_solver. }
  assert (waveforms_of (<[name := f]> bank_dir)
          = waveforms_of (delete name bank_dir)) as Hwf.
  { rewrite !waveforms_of_fold.
    rewrite <- (sorted_glob_ext "*.wav" (<[name := f]> bank_dir) (delete name bank_dir)).
    - apply fold_outcome_ext. intros x s Hx.
      assert (x ≠ name) by (by intros ->).
      unfold add_file. by rewrite open_path_delete_ne, open_path_insert_ne.
    - intros x Hx. assert (x ≠ name) by (by intros ->).
      by rewrite lookup_insert_ne, lookup_delete_ne. }
  split; [done|]. split; [done|].
  intros bank_name w. by rewrite !process_bank_eq, Hwf.
Qed.

Lemma only_wav_files_read_witness :
  waveforms_of {["a.txt" := Wave two_frames]} = Return []
  ∧ waveforms_of {["a.txt" := Unopenable wave_Error]} = Return [].
Proof.
  split.
  - destruct (only_wav_files_read ∅ "a.txt" (Wave two_frames)) as (_ & Hwf & _).
    + intros [base Hbase]. apply fnmatch_wav_intro in Hbase. vm_compute in Hbase. discriminate.
    + rewrite insert_empty in Hwf. rewrite Hwf. reflexivity.
  - destruct (only_wav_files_read ∅ "a.txt" (Unopenable wave_Error)) as (_ & Hwf & _).
    + intros [base Hbase]. apply fnmatch_wav_intro in Hbase. vm_compute in Hbase. discriminate.
    + rewrite insert_empty in Hwf. rewrite Hwf. reflexivity.
Defined.

(** ** [main] *)

Lemma main_loop_body_eq entries bank bank_names w :
  bank ≠ "" →
  main_loop_body entries bank bank_names w =
    match bank_outcome entries bank with
    | Raise e => (Raise e, w)
    | Return [] => (Return bank_names, w)
    | Return waveforms =>
        (Return (bank_names ++ [bank]), bank_written bank waveforms w)
    end.
Proof.
  intros Hbank. unfold main_loop_body, bank_outcome.
  destruct (entries !! bank) as [[|files]|]; [done| |done].
  unfold mbind, py_bind, bind. rewrite process_bank_eq.
  destruct (waveforms_of files) as [[|kv wf]|e]; [done| |done].
  cbn [name_bool default]. by apply String.eqb_neq in Hbank as ->.
Qed.

Lemma main_loop_run_banks entries banks :
  (∀ bank, bank ∈ banks → bank ≠ "") →
  ∀ bank_names w,
    for_each banks (main_loop_body entries) bank_names w
    = run_banks entries banks bank_names w.
Proof.
  induction banks as [|bank banks IH]; intros Hne bank_names w; [done|].
  assert (bank ≠ "") as Hbank by (apply Hne; left).
  assert (∀ b, b ∈ banks → b ≠ "") as Hne' by (intros; apply Hne; by right).
  cbn [for_each run_banks]. unfold mbind, py_bind, bind.
  rewrite main_loop_body_eq by done.
  destruct (bank_outcome entries bank) as [[|kv wf]|e]; [by apply IH|by apply IH|done].
Qed.

Lemma glob_AKWF_nonempty_names {E} (entries : gmap string E) bank :
  bank ∈ sorted (glob "AKWF_*" entries) → bank ≠ "".
Proof.
  rewrite elem_of_sorted, elem_of_glob. intros [Hm _] ->. done.
Qed.

Lemma main_eq argv fs w :
  main argv fs w =
    match fs (work_dir_of argv) with
    | None =>
        (Raise (SystemExit 1),
         reported ("Error: Directory " +:+ work_dir_of argv +:+ " not found") w)
    | Some entries =>
        match sorted (glob "AKWF_*" entries) with
        | [] =>
            (Raise (SystemExit 1),
             reported ("Error: No AKWF_* directories found in " +:+ work_dir_of argv) w)
        | banks =>
            match run_banks entries banks [] w with
            | (Return bank_names, w') => (Return tt, finished bank_names w')
            | (Raise e, w') => (Raise e, w')
            end
        end
    end.
Proof.
  unfold main. destruct (fs (work_dir_of argv)) as [entries|]; [|done].
  pose proof (@glob_AKWF_nonempty_names _ entries) as Hne.
  destruct (sorted (glob "AKWF_*" entries)) as [|bank banks] eqn:Hbanks; [done|].
  unfold_py. rewrite bool_decide_eq_false_2 by done.
  change (for_each (bank :: banks) _ [] w)
    with (for_each (bank :: banks) (main_loop_body entries) [] w).
  rewrite main_loop_run_banks by done.
  by destruct (run_banks entries (bank :: banks) [] w) as [[names|e] w'].
Qed.

Lemma read_error_status {A} e : read_error e → exit_status (@Raise A e) = 1.
Proof. by destruct e. Qed.

Lemma read_wav_read_error f e : read_wav f = Raise e → read_error e.
Proof.
  unfold read_wav, struct_unpack_h.
  destruct f as [e'|wav]; [by intros [= <-]|].
  repeat case_match; intros; by simplify_eq.
Qed.

Lemma fold_outcome_read_error {A S} (g : A → S → outcome S) xs :
  (∀ x s e, g x s = Raise e → read_error e) →
  ∀ s e, fold_outcome g xs s = Raise e → read_error e.
Proof.
  intros Hg. induction xs as [|x xs IH]; intros s e; [done|].
  simpl. destruct (g x s) eqn:Hx; [apply IH|].
  intros [= <-]. by eapply Hg.
Qed.

Lemma add_file_read_error bank_dir x s e :
  add_file bank_dir x s = Raise e → read_error e.
Proof.
  unfold add_file. destruct (read_wav _) as [[?|]|e'] eqn:Hread; try done.
  intros [= <-]. by eapply read_wav_read_error.
Qed.

Lemma waveforms_of_read_error bank_dir e :
  waveforms_of bank_dir = Raise e → read_error e.
Proof.
  rewrite waveforms_of_fold. apply fold_outcome_read_error.
  apply add_file_read_error.
Qed.

Lemma bank_outcome_read_error entries bank e :
  bank_outcome entries bank = Raise e → read_error e.
Proof.
  unfold bank_outcome. destruct (entries !! bank) as [[|files]|]; try done.
  apply waveforms_of_read_error.
Qed.

(** A turn that raises stops the loop, there or earlier. *)
Lemma fold_outcome_raises {A S} (g : A → S → outcome S) xs x :
  x ∈ xs → (∀ s, ∃ e, g x s = Raise e) →
  ∀ s, ∃ e, fold_outcome g xs s = Raise e.
Proof.
  intros Hx Hraise. induction Hx as [x xs|x y xs Hx IH]; intros s; simpl.
  - destruct (Hraise s) as [e ->]. eauto.
  - destruct (g y s); eauto.
Qed.

(** When every turn returns, so does the loop. *)
Lemma fold_outcome_returns {A S} (g : A → S → outcome S) xs :
  (∀ x s, x ∈ xs → ∃ s', g x s = Return s') →
  ∀ s, ∃ s', fold_outcome g xs s = Return s'.
Proof.
  induction xs as [|x xs IH]; intros Hg s; simpl; [eauto|].
  destruct (Hg x s) as [s' ->]; [left|].
  apply IH. intros. apply Hg. by right.
Qed.

(** ** File names of the output directory *)

Lemma string_length_app a b :
  String.length (a +:+ b) = (String.length a + String.length b)%nat.
Proof. induction a as [|c a IH]; simpl; [done|]. by rewrite IH. Qed.

Lemma json_name_inj bank bank' :
  bank +:+ ".json" = bank' +:+ ".json" → bank = bank'.
Proof.
  revert bank'. induction bank as [|c bank IH]; intros [|c' bank'] Heq;
    simpl in Heq; [done| | |].
  - apply (f_equal String.length) in Heq. simpl in Heq.
    rewrite string_length_app in Heq. simpl in Heq. lia.
  - apply (f_equal String.length) in Heq. simpl in Heq.
    rewrite string_length_app in Heq. simpl in Heq. lia.
  - injection Heq as -> Heq. f_equal. by apply IH.
Qed.

Lemma bank_json_not_manifest bank :
  fnmatch "AKWF_*" bank = true → bank +:+ ".json" ≠ "manifest.json".
Proof. intros [rest ->]%fnmatch_AKWF. done. Qed.

(** ** The loop of [main], in general *)

Lemma run_banks_returns entries banks :
  (∀ bank, bank ∈ banks → ∃ waveforms, bank_outcome entries bank = Return waveforms) →
  ∀ bank_names w,
    run_banks entries banks bank_names w
    = (Return (bank_names ++ filter (λ b, produces entries b = true) banks),
       banks_written entries banks w).
Proof.
  induction banks as [|bank banks IH]; intros Hret bank_names w; simpl.
  { by rewrite app_nil_r. }
  assert (∀ b, b ∈ banks → ∃ wf, bank_outcome entries b = Return wf) as Hret'
    by (intros; apply Hret; by right).
  rewrite filter_cons.
  destruct (Hret bank) as [[|kv wf] Hbank]; [left| |].
  - rewrite decide_False by (unfold produces; by rewrite Hbank).
    rewrite Hbank. by apply IH.
  - rewrite decide_True by (unfold produces; by rewrite Hbank).
    rewrite Hbank, IH by done. by rewrite <- app_assoc.
Qed.

(** Whatever the loop meets, it leaves [stderr] alone, raises nothing but
    read errors, and touches only the JSON files of producing banks. *)
Lemma run_banks_frame entries banks :
  ∀ bank_names w o w',
    run_banks entries banks bank_names w = (o, w') →
    stderr w' = stderr w
    ∧ (∀ e, o = Raise e → read_error e)
    ∧ (∀ k, (∀ bank, bank ∈ banks → produces entries bank = true →
                k ≠ bank +:+ ".json") →
            output_dir w' !! k = output_dir w !! k).
Proof.
  induction banks as [|bank banks IH]; intros bank_names w o w'; simpl.
  { intros [= <- <-]. done. }
  destruct (bank_outcome entries bank) as [[|kv wf]|e] eqn:Hbank.
  - intros Hrun. destruct (IH _ _ _ _ Hrun) as (? & ? & Hk).
    split; [done|]. split; [done|].
    intros k Hne. apply Hk. intros b Hb. apply Hne. by right.
  - intros Hrun. destruct (IH _ _ _ _ Hrun) as (Herr & ? & Hk).
    split; [done|]. split; [done|].
    intros k Hne. rewrite Hk by (intros b Hb; apply Hne; by right).
    simpl. apply lookup_insert_ne. symmetry. apply Hne; [left|].
    unfold produces. by rewrite Hbank.
  - intros [= <- <-]. split; [done|]. split; [|done].
    intros e' [= <-]. by eapply bank_outcome_read_error.
Qed.

Lemma run_banks_raises entries banks bank e :
  bank ∈ banks → bank_outcome entries bank = Raise e →
  ∀ bank_names w, ∃ e' w', run_banks entries banks bank_names w = (Raise e', w').
Proof.
  intros Hbank Hraise.
  induction Hbank as [bank banks|bank b banks Hbank IH]; intros bank_names w; simpl.
  - rewrite Hraise. eauto.
  - destruct (bank_outcome entries b) as [[|kv wf]|e']; eauto.
Qed.

Lemma run_banks_names entries banks :
  ∀ bank_names w names w',
    run_banks entries banks bank_names w = (Return names, w') →
    names = bank_names ++ filter (λ b, produces entries b = true) banks.
Proof.
  induction banks as [|bank banks IH]; intros bank_names w names w'; simpl.
  { intros [= <- <-]. by rewrite app_nil_r. }
  rewrite filter_cons.
  destruct (bank_outcome entries bank) as [[|kv wf]|e] eqn:Hbank; [| |done].
  - rewrite decide_False by (unfold produces; by rewrite Hbank). apply IH.
  - rewrite decide_True by (unfold produces; by rewrite Hbank).
    intros ->%IH. by rewrite <- app_assoc.
Qed.

Lemma sorted_nil l : sorted l = [] ↔ l = [].
Proof.
  split; [|by intros ->].
  intros Hnil. apply Permutation_nil. by rewrite <- (sorted_Permutation l), Hnil.
Qed.

Lemma glob_nil {E} pat (dir : gmap string E) :
  glob pat dir = [] ↔ ∀ name, is_Some (dir !! name) → fnmatch pat name = false.
Proof.
  split.
  - intros Hnil name Hname. apply not_true_is_false. intros Hm.
    assert (name ∈ glob pat dir) as Hin by (by apply elem_of_glob).
    rewrite Hnil in Hin. by apply not_elem_of_nil in Hin.
  - intros Hnone. apply elem_of_nil_inv. intros name [Hm Hin]%elem_of_glob.
    by rewrite (Hnone name Hin) in Hm.
Qed.

Lemma reads_cleanly_bank_outcome entries bank :
  reads_cleanly entries → fnmatch "AKWF_*" bank = true →
  ∃ waveforms, bank_outcome entries bank = Return waveforms.
Proof.
  intros Hclean Hbank. unfold bank_outcome.
  destruct (entries !! bank) as [[|files]|] eqn:Hfiles; eauto.
  rewrite waveforms_of_fold. apply fold_outcome_returns.
  intros x s [Hx [f Hf]]%elem_of_sorted%elem_of_glob.
  unfold add_file, open_path. rewrite Hf.
  destruct (Hclean bank files x f) as [[samples|] ->]; eauto.
Qed.

Lemma dict_set_not_nil {V} (d : list (string * V)) k v : dict_set d k v ≠ [].
Proof. destruct d as [|[k' v'] d]; simpl; [done|]. by case_match. Qed.

Lemma fold_add_file_nil bank_dir xs :
  ∀ s, fold_outcome (add_file bank_dir) xs s = Return [] →
       s = [] ∧ ∀ x, x ∈ xs → read_wav (open_path bank_dir x) = Return None.
Proof.
  induction xs as [|x xs IH]; intros s; simpl.
  { intros [= ->]. split; [done|]. by intros x ?%not_elem_of_nil. }
  unfold add_file at 1.
  destruct (read_wav (open_path bank_dir x)) as [[samples|]|e] eqn:Hx; [| |done].
  - intros [Hnil _]%IH. by apply dict_set_not_nil in Hnil.
  - intros [-> Hall]%IH. split; [done|].
    intros y [->|Hy]%elem_of_cons; auto.
Qed.

(** The output mapping is empty exactly when every [*.wav] file of the
    directory is skipped (none at all included). *)
Lemma empty_mapping_iff_all_skipped bank_dir :
  waveforms_of bank_dir = Return []
  ↔ ∀ name f, bank_dir !! name = Some f → fnmatch "*.wav" name = true →
              read_wav f = Return None.
Proof.
  rewrite waveforms_of_fold. split.
  - intros [_ Hall]%fold_add_file_nil name f Hf Hm.
    specialize (Hall name). unfold open_path in Hall. rewrite Hf in Hall.
    apply Hall. rewrite elem_of_sorted, elem_of_glob. eauto.
  - intros Hall.
    assert (∀ x, x ∈ sorted (glob "*.wav" bank_dir) →
                 ∀ s, add_file bank_dir x s = Return s) as Hskip.
    { intros x [Hx [f Hf]]%elem_of_sorted%elem_of_glob s.
      unfold add_file, open_path. by rewrite Hf, (Hall x f). }
    induction (sorted (glob "*.wav" bank_dir)) as [|x xs IH]; [done|].
    simpl. rewrite Hskip by left. apply IH. intros. apply Hskip. by right.
Qed.

(** C3: a bank whose output mapping is empty: [process_bank] writes no
    file, prints nothing and returns [None]; and in a run over a working
    directory that has the bank as a group directory, [<bank>.json] is left
    as it was and the manifest written at the end does not list the bank. *)
Theorem empty_bank_not_written (bank_name : string) (bank_dir : gmap string file) :
  waveforms_of bank_dir = Return [] →
  (∀ w, process_bank bank_name bank_dir w = (Return None, w))
  ∧ ∀ argv fs entries w o w',
      fs (work_dir_of argv) = Some entries →
      entries !! bank_name = Some (Directory bank_dir) →
      fnmatch "AKWF_*" bank_name = true →
      main argv fs w = (o, w') →
      output_dir w' !! (bank_name +:+ ".json")
        = output_dir w !! (bank_name +:+ ".json")
      ∧ (o = Return tt →
         ∃ bank_names,
           output_dir w' !! "manifest.json"
             = Some (Dump (manifest bank_names) (Some 2%nat))
           ∧ bank_name ∉ bank_names).
Proof.
  intros Hempty. split.
  { intros w. by rewrite process_bank_eq, Hempty. }
  intros argv fs entries w o w' Hfs Hentry Hmatch. rewrite main_eq, Hfs.
  assert (produces entries bank_name = false) as Hprod.
  { unfold produces, bank_outcome. by rewrite Hentry, Hempty. }
  assert (∀ bank, produces entries bank = true →
            bank_name +:+ ".json" ≠ bank +:+ ".json") as Hother.
  { intros bank Hp Heq. apply json_name_inj in Heq as ->. congruence. }
  destruct (sorted (glob "AKWF_*" entries)) as [|b banks] eqn:Hbanks.
  { intros [= <- <-]. done. }
  destruct (run_banks entries (b :: banks) [] w) as [[names|e] w1] eqn:Hrun;
    intros [= <- <-].
  - destruct (run_banks_frame _ _ _ _ _ _ Hrun) as (_ & _ & Hk).
    apply run_banks_names in Hrun. simpl in Hrun. split.
    + simpl. rewrite lookup_insert_ne
        by (apply not_eq_sym; by apply bank_json_not_manifest).
      apply Hk. auto.
    + intros _. exists names. split; [apply lookup_insert_eq|].
      rewrite Hrun. intros [Hp _]%list_elem_of_filter. congruence.
  - destruct (run_banks_frame _ _ _ _ _ _ Hrun) as (_ & _ & Hk).
    split; [apply Hk; auto|done].
Qed.

(** With an [AKWF_*] entry and no failing read, [main] goes through. *)
Lemma main_returns argv fs entries w :
  fs (work_dir_of argv) = Some entries →
  glob "AKWF_*" entries ≠ [] →
  reads_cleanly entries →
  main argv fs w
  = (Return tt,
     finished
       (filter (λ b, produces entries b = true) (sorted (glob "AKWF_*" entries)))
       (banks_written entries (sorted (glob "AKWF_*" entries)) w)).
Proof.
  intros Hfs Hglob Hclean. rewrite main_eq, Hfs.
  destruct (sorted (glob "AKWF_*" entries)) as [|b bs] eqn:Hbanks.
  { by apply (proj1 (sorted_nil _)) in Hbanks. }
  rewrite run_banks_returns; [done|].
  intros bank Hbank. apply reads_cleanly_bank_outcome; [done|].
  rewrite <- Hbanks, elem_of_sorted, elem_of_glob in Hbank. tauto.
Qed.

(** C4: when the working directory has an [AKWF_*] entry and no read fails,
    [main] returns and [manifest.json] (replacing any earlier one) holds
    [{"banks": [...]}] with indent 2: the sorted [AKWF_*] names, kept exactly
    when they are directories with a non-empty output mapping. *)
Theorem manifest_written argv fs entries w :
  fs (work_dir_of argv) = Some entries →
  glob "AKWF_*" entries ≠ [] →
  reads_cleanly entries →
  let banks :=
    filter (λ b, produces entries b = true) (sorted (glob "AKWF_*" entries)) in
  main argv fs w
    = (Return tt,
       finished banks (banks_written entries (sorted (glob "AKWF_*" entries)) w))
  ∧ output_dir (main argv fs w).2 !! "manifest.json"
      = Some (Dump (JObject [("banks", JArray (map JString banks))]) (Some 2%nat))
  ∧ StronglySorted path_le banks
  ∧ NoDup banks
  ∧ ∀ bank, bank ∈ banks ↔
      fnmatch "AKWF_*" bank = true
      ∧ ∃ files kv waveforms,
          entries !! bank = Some (Directory files)
          ∧ waveforms_of files = Return (kv :: waveforms).
Proof.
  intros Hfs Hglob Hclean banks.
  pose proof (main_returns argv fs entries w Hfs Hglob Hclean) as Hmain.
  fold banks in Hmain.
  split; [done|]. split; [|split; [|split]].
  - rewrite Hmain. apply lookup_insert_eq.
  - apply StronglySorted_filter, sorted_StronglySorted.
  - apply NoDup_filter, NoDup_sorted_glob.
  - intros bank. unfold banks.
    rewrite list_elem_of_filter, elem_of_sorted, elem_of_glob.
    unfold produces, bank_outcome. split.
    + intros (Hp & Hm & _). split; [done|].
      destruct (entries !! bank) as [[|files]|]; try done.
      destruct (waveforms_of files) as [[|kv wf]|] eqn:Hwf; try done.
      by exists files, kv, wf.
    + intros (Hm & files & kv & wf & Hentry & Hwf).
      rewrite Hentry, Hwf. eauto.
Qed.

Lemma reads_cleanlyb_spec entries :
  reads_cleanlyb entries = true → reads_cleanly entries.
Proof.
  unfold reads_cleanlyb. rewrite forallb_forall.
  intros Hall bank files name f Hbank Hm Hname Hwav.
  assert (In (bank, Directory files) (map_to_list entries)) as Hin
    by (by apply list_elem_of_In, elem_of_map_to_list).
  apply Hall in Hin. cbn [fst snd] in Hin. rewrite Hm in Hin. cbn [negb orb] in Hin.
  rewrite forallb_forall in Hin.
  assert (In (name, f) (map_to_list files)) as Hin'
    by (by apply list_elem_of_In, elem_of_map_to_list).
  apply Hin in Hin'. cbn [fst snd] in Hin'. rewrite Hwav in Hin'. cbn [negb orb] in Hin'.
  destruct (read_wav f) as [samples|e]; [eauto|done].
Qed.

(** C5, as the script has it: status 1 with one line on [stderr] and
    nothing written when the working root is not a directory, or when no
    entry of it (directory or not) matches [AKWF_*]; status 0 when some
    entry matches and no read of a sample file raises. *)
Theorem exit_status_cases argv fs w :
  (fs (work_dir_of argv) = None →
   run argv fs w
   = (1, reported ("Error: Directory " +:+ work_dir_of argv +:+ " not found") w))
  ∧ (∀ entries,
       fs (work_dir_of argv) = Some entries →
       (∀ name, is_Some (entries !! name) → fnmatch "AKWF_*" name = false) →
       run argv fs w
       = (1, reported
               ("Error: No AKWF_* directories found in " +:+ work_dir_of argv) w))
  ∧ (∀ entries,
       fs (work_dir_of argv) = Some entries →
       (∃ name, is_Some (entries !! name) ∧ fnmatch "AKWF_*" name = true) →
       reads_cleanly entries →
       (run argv fs w).1 = 0).
Proof.
  unfold run. split; [|split].
  - intros Hfs. by rewrite main_eq, Hfs.
  - intros entries Hfs Hnone. rewrite main_eq, Hfs.
    apply glob_nil in Hnone. by rewrite Hnone.
  - intros entries Hfs (name & Hin & Hm) Hclean.
    assert (glob "AKWF_*" entries ≠ []) as Hglob.
    { intros Hnil. rewrite glob_nil in Hnil. by rewrite (Hnil name Hin) in Hm. }
    by rewrite (main_returns argv fs entries w Hfs Hglob Hclean).
Qed.

(** C10: when some entry matches [AKWF_*] and every matching directory has
    an empty output mapping (also when no match is a directory at all),
    [main] returns, so the status is 0; it has written [manifest.json] with
    an empty list of banks and printed the summary line for 0 bank files,
    and nothing else. *)
Theorem empty_manifest_written argv fs entries w :
  fs (work_dir_of argv) = Some entries →
  (∃ name, is_Some (entries !! name) ∧ fnmatch "AKWF_*" name = true) →
  (∀ bank files,
     entries !! bank = Some (Directory files) → fnmatch "AKWF_*" bank = true →
     waveforms_of files = Return []) →
  main argv fs w
  = (Return tt,
     World (stdout w ++ ["Generated 0 bank files and manifest.json"])
       (stderr w)
       (<["manifest.json" := Dump (JObject [("banks", JArray [])]) (Some 2%nat)]>
          (output_dir w)))
  ∧ (run argv fs w).1 = 0.
Proof.
  intros Hfs (name & Hin & Hm) Hempty.
  assert (∀ banks, (∀ bank, bank ∈ banks → fnmatch "AKWF_*" bank = true) →
            run_banks entries banks [] w = (Return [], w)) as Hloop.
  { induction banks as [|bank banks IH]; intros Hall; [done|]. simpl.
    assert (bank_outcome entries bank = Return []) as ->.
    { unfold bank_outcome.
      destruct (entries !! bank) as [[|files]|] eqn:Hbank; try done.
      apply (Hempty bank); [done|]. apply Hall. left. }
    apply IH. intros. apply Hall. by right. }
  assert (main argv fs w = (Return tt, finished [] w)) as Hmain.
  { rewrite main_eq, Hfs.
    destruct (sorted (glob "AKWF_*" entries)) as [|b bs] eqn:Hbanks.
    { apply (proj1 (sorted_nil _)) in Hbanks. rewrite glob_nil in Hbanks.
      by rewrite (Hbanks name Hin) in Hm. }
    rewrite Hloop; [done|].
    intros bank. rewrite <- Hbanks, elem_of_sorted, elem_of_glob. tauto. }
  unfold run. rewrite Hmain. done.
Qed.

Lemma read_wav_unreadable f : unreadable f → ∃ e, read_wav f = Raise e.
Proof.
  destruct f as [e|wav]; [by exists (Open_failed e)|].
  intros [Hc Hlen]. exists struct_error.
  unfold read_wav, struct_unpack_h. rewrite Hc. simpl.
  by apply Z.eqb_neq in Hlen as ->.
Qed.

(** C7, as the script has it: a file that does not open, or a mono file
    whose frames are not two bytes each in what is read, makes [read_wav]
    raise; nothing catches the exception: the loop of the bank raises,
    [process_bank] raises without writing or printing, and a run over a
    tree with that bank ends with status 1, having written neither the
    manifest nor the JSON file of that bank. *)
Theorem unreadable_file_aborts (f : file) :
  unreadable f →
  (∃ e, read_wav f = Raise e ∧ read_error e)
  ∧ ∀ (bank_dir : gmap string file) name,
      bank_dir !! name = Some f → fnmatch "*.wav" name = true →
      (∀ bank_name w, ∃ e, process_bank bank_name bank_dir w = (Raise e, w))
      ∧ ∀ argv fs entries bank w,
          fs (work_dir_of argv) = Some entries →
          entries !! bank = Some (Directory bank_dir) →
          fnmatch "AKWF_*" bank = true →
          ∃ e w',
            main argv fs w = (Raise e, w')
            ∧ (run argv fs w).1 = 1
            ∧ output_dir w' !! "manifest.json" = output_dir w !! "manifest.json"
            ∧ output_dir w' !! (bank +:+ ".json")
                = output_dir w !! (bank +:+ ".json").
Proof.
  intros Hbad. destruct (read_wav_unreadable f Hbad) as [e He].
  split. { exists e. split; [done|]. by eapply read_wav_read_error. }
  intros bank_dir name Hname Hm.
  assert (∃ e', waveforms_of bank_dir = Raise e') as [e' He'].
  { rewrite waveforms_of_fold. apply (fold_outcome_raises _ _ name).
    - rewrite elem_of_sorted, elem_of_glob. eauto.
    - intros s. exists e. unfold add_file, open_path. by rewrite Hname, He. }
  split. { intros bank_name w. exists e'. by rewrite process_bank_eq, He'. }
  intros argv fs entries bank w Hfs Hbank Hbm.
  assert (bank_outcome entries bank = Raise e') as Hout.
  { unfold bank_outcome. by rewrite Hbank. }
  assert (bank ∈ sorted (glob "AKWF_*" entries)) as Hin.
  { rewrite elem_of_sorted, elem_of_glob. eauto. }
  destruct (run_banks_raises entries _ bank e' Hin Hout [] w) as (e1 & w1 & Hrun).
  destruct (run_banks_frame _ _ _ _ _ _ Hrun) as (_ & Herr & Hk).
  assert (main argv fs w = (Raise e1, w1)) as Hmain.
  { rewrite main_eq, Hfs.
    destruct (sorted (glob "AKWF_*" entries)) as [|b bs]; [by apply elem_of_nil in Hin|].
    by rewrite Hrun. }
  exists e1, w1. split; [done|]. split; [|split].
  - unfold run. rewrite Hmain. cbn [fst]. apply (read_error_status (A:=unit)).
    by apply Herr.
  - apply Hk. intros b [Hb _]%elem_of_sorted%elem_of_glob _.
    apply not_eq_sym. by apply bank_json_not_manifest.
  - apply Hk. intros b _ Hp Heq. apply json_name_inj in Heq as <-.
    unfold produces in Hp. by rewrite Hout in Hp.
Qed.

(** ** Keys of the output mapping *)

Lemma rfind_dot_wav base : rfind "." (base +:+ ".wav") = Some (String.length base).
Proof. induction base as [|c base IH]; [done|]. simpl. by rewrite IH. Qed.

Lemma substring_app_l a b : substring 0 (String.length a) (a +:+ b) = a.
Proof.
  induction a as [|c a IH]; simpl; [by destruct b|]. by rewrite IH.
Qed.

(** The stem of a [*.wav] name is the name without [.wav], except for the
    name [.wav] itself, which has no extension to pathlib. *)
Lemma stem_wav base :
  stem (base +:+ ".wav") = if decide (base = "") then ".wav" else base.
Proof.
  unfold stem. rewrite rfind_dot_wav, string_length_app. simpl String.length.
  destruct base as [|c base]; [done|].
  rewrite decide_False by done.
  replace (0 <? String.length (String c base))%nat with true
    by (symmetry; apply Nat.ltb_lt; simpl; lia).
  replace (String.length (String c base) <? String.length (String c base) + 4 - 1)%nat
    with true by (symmetry; apply Nat.ltb_lt; lia).
  apply substring_app_l.
Qed.

(** Two [*.wav] names share a stem only if they are [.wav] and [.wav.wav]. *)
Lemma stem_wav_collision n1 n2 :
  fnmatch "*.wav" n1 = true → fnmatch "*.wav" n2 = true →
  stem n1 = stem n2 →
  n1 = n2 ∨ (n1 = ".wav" ∧ n2 = ".wav.wav") ∨ (n1 = ".wav.wav" ∧ n2 = ".wav").
Proof.
  intros [b1 ->]%fnmatch_wav [b2 ->]%fnmatch_wav. rewrite !stem_wav.
  repeat case_decide; subst; intros Heq; subst; auto.
Qed.

Lemma dict_set_keys {V} (d : list (string * V)) k v :
  (dict_set d k v).*1 = insert_key d.*1 k.
Proof.
  unfold insert_key. induction d as [|[k' v'] d IH]; [done|].
  cbn [dict_set]. destruct (String.eqb_spec k' k) as [->|Hne].
  - rewrite !fmap_cons. cbn [fst]. by rewrite bool_decide_eq_true_2 by left.
  - rewrite !fmap_cons. cbn [fst]. rewrite IH.
    destruct (bool_decide_reflect (k ∈ d.*1)) as [Hin|Hnin].
    + rewrite bool_decide_eq_true_2 by (by right). done.
    + rewrite bool_decide_eq_false_2; [done|].
      intros [?|?]%elem_of_cons; congruence.
Qed.

Lemma insert_key_NoDup keys k : NoDup keys → NoDup (insert_key keys k).
Proof.
  intros Hnd. unfold insert_key. case_bool_decide; [done|].
  apply NoDup_app. split; [done|]. split; [|apply NoDup_singleton].
  intros x Hx ->%list_elem_of_singleton. done.
Qed.

Lemma fold_insert_key_NoDup ks : ∀ acc,
  NoDup acc → NoDup (fold_left insert_key ks acc).
Proof.
  induction ks as [|k ks IH]; intros acc Hnd; [done|].
  simpl. by apply IH, insert_key_NoDup.
Qed.

Lemma elem_of_insert_key keys k x : x ∈ insert_key keys k ↔ x ∈ keys ∨ x = k.
Proof.
  unfold insert_key. case_bool_decide.
  - split; [by left|]. by intros [?| ->].
  - by rewrite elem_of_app, list_elem_of_singleton.
Qed.

Lemma elem_of_fold_insert_key ks : ∀ acc x,
  x ∈ fold_left insert_key ks acc ↔ x ∈ acc ∨ x ∈ ks.
Proof.
  induction ks as [|k ks IH]; intros acc x; simpl.
  - rewrite elem_of_nil. tauto.
  - rewrite IH, elem_of_insert_key, elem_of_cons. tauto.
Qed.

Lemma fold_insert_key_fresh ks : ∀ acc,
  NoDup (acc ++ ks) → fold_left insert_key ks acc = acc ++ ks.
Proof.
  induction ks as [|k ks IH]; intros acc Hnd; simpl.
  { by rewrite app_nil_r. }
  assert (k ∉ acc) as Hk.
  { apply NoDup_app in Hnd as (_ & Hdisj & _). intros Hin.
    apply (Hdisj k Hin). left. }
  unfold insert_key at 2. rewrite bool_decide_eq_false_2 by done.
  rewrite IH; [by rewrite <- app_assoc|]. by rewrite <- app_assoc.
Qed.

Lemma fold_add_file_keys bank_dir xs : ∀ s waveforms,
  fold_outcome (add_file bank_dir) xs s = Return waveforms →
  waveforms.*1
  = fold_left insert_key
      (stem <$> filter (λ name, included bank_dir name = true) xs) s.*1.
Proof.
  induction xs as [|x xs IH]; intros s wf; simpl.
  { by intros [= ->]. }
  rewrite filter_cons. unfold add_file at 1.
  destruct (read_wav (open_path bank_dir x)) as [[samples|]|e] eqn:Hx; [| |done].
  - rewrite decide_True by (unfold included; by rewrite Hx).
    intros ->%IH. rewrite fmap_cons. cbn [fold_left]. by rewrite dict_set_keys.
  - rewrite decide_False by (unfold included; by rewrite Hx). apply IH.
Qed.

(** C6: the loop of [process_bank] goes through the [*.wav] names of the
    directory in ascending order, each once.  The keys of the output
    mapping are the stems of the files that gave samples, in that order,
    each key where it was first assigned, and no key twice.  The stem of
    [base.wav] is [base]; the keys are the stems one by one unless both
    [.wav] and [.wav.wav] gave samples (the only two names with one stem). *)
Theorem keys_in_sorted_order (bank_dir : gmap string file) waveforms :
  waveforms_of bank_dir = Return waveforms →
  let files := sorted (glob "*.wav" bank_dir) in
  let read := filter (λ name, included bank_dir name = true) files in
  StronglySorted path_le files
  ∧ NoDup files
  ∧ (∀ name, name ∈ files ↔
       fnmatch "*.wav" name = true ∧ is_Some (bank_dir !! name))
  ∧ waveforms.*1 = insertion_order (stem <$> read)
  ∧ NoDup waveforms.*1
  ∧ (∀ key, key ∈ waveforms.*1 ↔ ∃ name, name ∈ read ∧ key = stem name)
  ∧ (∀ base, base ≠ "" → stem (base +:+ ".wav") = base)
  ∧ (¬ (".wav" ∈ read ∧ ".wav.wav" ∈ read) → waveforms.*1 = stem <$> read).
Proof.
  intros Hwf files read. rewrite waveforms_of_fold in Hwf.
  apply fold_add_file_keys in Hwf. fold files read in Hwf. simpl in Hwf.
  assert (NoDup files) as Hnd by apply NoDup_sorted_glob.
  assert (∀ name, name ∈ files ↔
            fnmatch "*.wav" name = true ∧ is_Some (bank_dir !! name)) as Hfiles.
  { intros name. unfold files. by rewrite elem_of_sorted, elem_of_glob. }
  split; [apply sorted_StronglySorted|]. split; [done|]. split; [done|].
  split; [done|]. split; [|split; [|split]].
  - rewrite Hwf. apply fold_insert_key_NoDup. constructor.
  - intros key. rewrite Hwf, elem_of_fold_insert_key, list_elem_of_fmap, elem_of_nil.
    naive_solver.
  - intros base Hbase. rewrite stem_wav. by rewrite decide_False.
  - intros Hno. rewrite Hwf. apply (fold_insert_key_fresh _ []). simpl.
    apply NoDup_fmap_2_strong; [|by apply NoDup_filter].
    intros n1 n2 Hn1 Hn2 Heq.
    pose proof Hn1 as [_ [Hm1 _]%Hfiles]%list_elem_of_filter.
    pose proof Hn2 as [_ [Hm2 _]%Hfiles]%list_elem_of_filter.
    destruct (stem_wav_collision n1 n2 Hm1 Hm2 Heq) as [?|[[-> ->]|[-> ->]]];
      [done|exfalso; apply Hno; by split..].
Qed.

(** ** The script run on small trees *)

Lemma main_pair argv fs w : main argv fs w = ((main argv fs w).1, (main argv fs w).2).
Proof. by destruct (main argv fs w). Qed.

Lemma empty_bank_not_written_witness :
  process_bank "AKWF_quiet" quiet_bank fresh = (Return None, fresh)
  ∧ output_dir (main ["convert.py"; "waves"] example_fs fresh).2 !! "AKWF_quiet.json"
    = None.
Proof.
  destruct (empty_bank_not_written "AKWF_quiet" quiet_bank) as [Hbank Hmain];
    [vm_compute; reflexivity|].
  split; [apply Hbank|].
  destruct (Hmain ["convert.py"; "waves"] example_fs example_root fresh
              (main ["convert.py"; "waves"] example_fs fresh).1
              (main ["convert.py"; "waves"] example_fs fresh).2) as [Hkey _];
    [reflexivity|reflexivity|reflexivity|apply main_pair|].
  exact Hkey.
Defined.

Lemma manifest_written_witness :
  output_dir (main ["convert.py"; "waves"] example_fs fresh).2 !! "manifest.json"
  = Some (Dump (JObject [("banks", JArray [JString "AKWF_test"])]) (Some 2%nat)).
Proof.
  destruct (manifest_written ["convert.py"; "waves"] example_fs example_root fresh)
    as (_ & Hmanifest & _);
    [reflexivity|vm_compute; discriminate
    |apply reads_cleanlyb_spec; vm_compute; reflexivity|].
  rewrite Hmanifest. vm_compute. reflexivity.
Defined.

Lemma exit_status_cases_witness :
  (run ["convert.py"; "nowhere"] example_fs fresh).1 = 1
  ∧ (run ["convert.py"] example_fs fresh).1 = 1
  ∧ (run ["convert.py"; "waves"] example_fs fresh).1 = 0.
Proof.
  split; [|split].
  - destruct (exit_status_cases ["convert.py"; "nowhere"] example_fs fresh)
      as (Hnodir & _ & _).
    rewrite Hnodir; reflexivity.
  - destruct (exit_status_cases ["convert.py"] example_fs fresh)
      as (_ & Hnone & _).
    rewrite (Hnone ∅); [reflexivity|reflexivity|].
    intros name [x Hx]. rewrite lookup_empty in Hx. discriminate.
  - destruct (exit_status_cases ["convert.py"; "waves"] example_fs fresh)
      as (_ & _ & Hok).
    apply (Hok example_root); [reflexivity| |].
    + exists "AKWF_test". split; [eexists; reflexivity|reflexivity].
    + apply reads_cleanlyb_spec. vm_compute. reflexivity.
Defined.

Lemma empty_manifest_written_witness :
  main ["convert.py"; "quiet"] example_fs fresh
  = (Return tt,
     World ["Generated 0 bank files and manifest.json"] []
       {["manifest.json" := Dump (JObject [("banks", JArray [])]) (Some 2%nat)]}).
Proof.
  destruct (empty_manifest_written ["convert.py"; "quiet"] example_fs quiet_root fresh)
    as [Hmain _]; [reflexivity| | |exact Hmain].
  - exists "AKWF_notes.txt". split; [eexists; reflexivity|reflexivity].
  - intros bank files Hbank _.
    apply elem_of_map_to_list in Hbank. vm_compute map_to_list in Hbank.
    repeat (apply elem_of_cons in Hbank as [Hbank|Hbank]);
      try (by apply elem_of_nil in Hbank); try discriminate Hbank.
    injection Hbank as -> ->. vm_compute. reflexivity.
Defined.

Lemma unreadable_file_aborts_witness :
  (∃ e, read_wav (Wave eight_bit) = Raise e)
  ∧ ∃ e w',
      main ["convert.py"; "bad"] example_fs fresh = (Raise e, w')
      ∧ (run ["convert.py"; "bad"] example_fs fresh).1 = 1
      ∧ output_dir w' !! "manifest.json" = None.
Proof.
  destruct (unreadable_file_aborts (Wave eight_bit)) as [[e [He _]] Hrun].
  { split; [reflexivity|vm_compute; discriminate]. }
  split; [by exists e|].
  destruct (Hrun {["x.wav" := Wave eight_bit]} "x.wav") as [_ Hmain];
    [reflexivity|reflexivity|].
  destruct (Hmain ["convert.py"; "bad"] example_fs bad_root "AKWF_bad" fresh)
    as (e' & w' & Hm & Hstatus & Hmanifest & _);
    [reflexivity|reflexivity|reflexivity|].
  exists e', w'. split; [exact Hm|]. split; [exact Hstatus|exact Hmanifest].
Defined.

Lemma keys_in_sorted_order_witness :
  ∃ waveforms,
    waveforms_of ordered_bank = Return waveforms ∧ waveforms.*1 = ["a"; "b"].
Proof.
  exists [("a", [0.999969%float; (-1)%float]); ("b", [0.999969%float; (-1)%float])].
  assert (waveforms_of ordered_bank
          = Return [("a", [0.999969%float; (-1)%float]);
                    ("b", [0.999969%float; (-1)%float])]) as Hwf
    by (vm_compute; reflexivity).
  split; [exact Hwf|].
  destruct (keys_in_sorted_order ordered_bank _ Hwf) as (_ & _ & _ & Hkeys & _).
  rewrite Hkeys. vm_compute. reflexivity.
Defined.

(** The two names with one stem: the second file takes the key of the first. *)
Example dot_wav_shares_its_key :
  waveforms_of (<[".wav" := Wave empty8]> {[".wav.wav" := Wave two_frames]})
  = Return [(".wav", [0.999969%float; (-1)%float])].
Proof. vm_compute. reflexivity. Qed.

(** C5 as stated fails twice: with no [AKWF_*] subdirectory at all (the only
    entry is a regular file) the script writes the manifest and ends with
    status 0; and with a working root that is a directory and has an
    [AKWF_*] subdirectory the status is 1 when a sample file is bad. *)
Lemma status_0_without_bank_directory :
  map_to_list notes_root = [("AKWF_notes.txt", Not_a_directory)]
  ∧ run ["convert.py"; "notes"] example_fs fresh
    = (0, World ["Generated 0 bank files and manifest.json"] []
            {["manifest.json" := Dump (JObject [("banks", JArray [])]) (Some 2%nat)]})
  ∧ example_fs "bad" = Some bad_root
  ∧ bad_root !! "AKWF_bad" = Some (Directory {["x.wav" := Wave eight_bit]})
  ∧ (run ["convert.py"; "bad"] example_fs fresh).1 = 1.
Proof. repeat split; vm_compute; reflexivity. Qed.

(** C7 as stated fails: a mono file with another sample width is read
    without error when what [readframes] returns happens to be two bytes per
    declared frame.  The cut 32-bit file gives two samples that are the
    halves of its one frame, and they go into the output mapping; the empty
    8-bit file gives an empty waveform. *)
Lemma wrong_width_read_silently :
  sampwidth truncated32 = 4
  ∧ read_wav (Wave truncated32) = Return (Some [0%float; 0.5%float])
  ∧ waveforms_of {["t.wav" := Wave truncated32]}
    = Return [("t", [0%float; 0.5%float])]
  ∧ sampwidth empty8 = 1
  ∧ read_wav (Wave empty8) = Return (Some [])
  ∧ waveforms_of {["e.wav" := Wave empty8]} = Return [("e", [])].
Proof. repeat split; vm_compute; reflexivity. Qed.

(** * Further properties of the script *)

(** ** [read_wav]: what the rounding keeps, and which files raise *)

Lemma all_samples_recovered s : -32768 ≤ s ≤ 32767 → sample_recovered s = true.
Proof.
  intros Hs.
  apply (forall_from_spec sample_recovered (Z.to_nat 65536) (-32768)); [|lia].
  vm_cast_no_check (eq_refl true).
Qed.

(** X1: rounding to six decimals loses nothing of a 16-bit sample: the
    sample is the integer nearest to [32768] times the float, so two
    different samples never give the same float. *)
Theorem normalize_keeps_sample s :
  -32768 ≤ s ≤ 32767 →
  sample_of (normalize s) = s
  ∧ ∀ t, -32768 ≤ t ≤ 32767 → normalize s = normalize t → s = t.
Proof.
  assert (∀ z, -32768 ≤ z ≤ 32767 → sample_of (normalize z) = z) as Hback.
  { intros z Hz. rewrite (normalize_exact z Hz).
    apply Z.eqb_eq. by apply all_samples_recovered. }
  intros Hs. split; [by apply Hback|].
  intros t Ht Heq. rewrite <- (Hback s Hs), <- (Hback t Ht). by rewrite Heq.
Qed.

Lemma normalize_keeps_sample_witness : sample_of (normalize 12345) = 12345.
Proof.
  destruct (normalize_keeps_sample 12345) as [Hback _];
    [split; vm_compute; discriminate|exact Hback].
Defined.

Lemma unpack_h_zeros n : unpack_h (replicate (2 * n) x00) = replicate n 0.
Proof.
  induction n as [|n IH]; [done|].
  replace (2 * S n)%nat with (S (S (2 * n))) by lia.
  cbn [replicate unpack_h]. rewrite IH. reflexivity.
Qed.

Lemma Forall_eq_replicate {A} (x : A) l : Forall (eq x) l → l = replicate (length l) x.
Proof. induction 1 as [|y l <- _ IH]; simpl; [done|]. by rewrite <- IH. Qed.

(** X2: silence stays silence: a complete mono 16-bit file whose bytes are
    all zero is read as that many times [0.0]. *)
Theorem read_wav_silence (wav : Wave_read) :
  nchannels wav = 1 → sampwidth wav = 2 →
  0 ≤ chunksize wav →
  2 * getnframes wav ≤ Z.of_nat (length (data_chunk wav)) →
  Forall (eq x00) (data_chunk wav) →
  read_wav (Wave wav)
  = Return (Some (replicate (Z.to_nat (getnframes wav)) 0%float)).
Proof.
  intros Hc Hs Hsize Hdata Hzero.
  destruct (readframes_mono16 wav Hc Hs Hsize Hdata) as [Hraw Hlen].
  assert (0 ≤ getnframes wav) as Hn.
  { unfold getnframes, framesize. rewrite Hc, Hs. apply Z.div_pos; lia. }
  assert (readframes wav (getnframes wav)
          = replicate (2 * Z.to_nat (getnframes wav)) x00) as Hbytes.
  { rewrite <- Hlen. apply Forall_eq_replicate.
    rewrite Hraw. by apply Forall_take. }
  unfold read_wav, getnchannels, struct_unpack_h. rewrite Hc. simpl.
  rewrite Hlen.
  replace (Z.of_nat (2 * Z.to_nat (getnframes wav)) =? 2 * getnframes wav)
    with true by (symmetry; apply Z.eqb_eq; lia).
  rewrite Hbytes, unpack_h_zeros. do 2 f_equal.
  generalize (Z.to_nat (getnframes wav)). intros n.
  induction n as [|n IH]; [done|]. simpl. by rewrite IH.
Qed.

Lemma read_wav_silence_witness :
  read_wav (Wave silence) = Return (Some [0%float; 0%float; 0%float]).
Proof.
  rewrite (read_wav_silence silence);
    [reflexivity|reflexivity|reflexivity|vm_compute; discriminate
    |vm_compute; discriminate|repeat constructor].
Defined.

(** X3: a complete mono file of another sample width, with at least one
    frame, is not read as garbage: [struct.unpack] refuses its buffer. *)
Theorem read_wav_wrong_width (wav : Wave_read) :
  nchannels wav = 1 →
  0 < sampwidth wav → sampwidth wav ≠ 2 →
  chunksize wav = Z.of_nat (length (data_chunk wav)) →
  0 < getnframes wav →
  read_wav (Wave wav) = Raise struct_error.
Proof.
  intros Hc Hw Hne Hsize Hn.
  unfold read_wav, struct_unpack_h, getnchannels. rewrite Hc. simpl.
  replace (Z.of_nat (length (readframes wav (getnframes wav)))
             =? 2 * getnframes wav) with false; [done|].
  symmetry. apply Z.eqb_neq.
  unfold readframes, getnframes, framesize in *. rewrite Hc in *.
  rewrite Z.mul_1_l in *.
  pose proof (Z.mul_div_le (chunksize wav) (sampwidth wav) Hw) as Hle.
  rewrite Z.min_l by lia. rewrite length_take. nia.
Qed.

Lemma read_wav_wrong_width_witness : read_wav (Wave eight_bit) = Raise struct_error.
Proof.
  apply read_wav_wrong_width;
    [reflexivity|reflexivity|vm_compute; discriminate|reflexivity|reflexivity].
Defined.

(** X4: a mono 16-bit file that holds fewer bytes than its header declares
    frames for gives no shortened waveform: the read raises. *)
Theorem read_wav_truncated (wav : Wave_read) :
  nchannels wav = 1 → sampwidth wav = 2 →
  Z.of_nat (length (data_chunk wav)) < 2 * getnframes wav →
  read_wav (Wave wav) = Raise struct_error.
Proof.
  intros Hc Hs Hshort.
  unfold read_wav, struct_unpack_h, getnchannels. rewrite Hc. simpl.
  replace (Z.of_nat (length (readframes wav (getnframes wav)))
             =? 2 * getnframes wav) with false; [done|].
  symmetry. apply Z.eqb_neq. unfold readframes. rewrite length_take. lia.
Qed.

Lemma read_wav_truncated_witness : read_wav (Wave cut16) = Raise struct_error.
Proof.
  apply read_wav_truncated; [reflexivity|reflexivity|reflexivity].
Defined.

(** ** [process_bank]: what goes into the mapping *)

Lemma fold_outcome_app {A S} (g : A → S → outcome S) xs ys s :
  fold_outcome g (xs ++ ys) s =
    match fold_outcome g xs s with
    | Return s' => fold_outcome g ys s'
    | Raise e => Raise e
    end.
Proof.
  revert s. induction xs as [|x xs IH]; intros s; [done|].
  simpl. destruct (g x s); [apply IH|done].
Qed.

(** X6: when no read raises and one [*.wav] file gives samples (even none,
    for a file without frames), [process_bank] replaces [<bank>.json] by the
    compact dump of a non-empty mapping, prints the progress line with the
    number of its keys and returns the bank name. *)
Theorem process_bank_writes (bank_name : string) (bank_dir : gmap string file)
    name f samples w :
  (∀ n g, bank_dir !! n = Some g → fnmatch "*.wav" n = true →
          ∃ r, read_wav g = Return r) →
  bank_dir !! name = Some f → fnmatch "*.wav" name = true →
  read_wav f = Return (Some samples) →
  ∃ waveforms,
    waveforms_of bank_dir = Return waveforms
    ∧ waveforms ≠ []
    ∧ process_bank bank_name bank_dir w
      = (Return (Some bank_name),
         World
           (stdout w ++ ["Processed " +:+ bank_name +:+ ": "
                          +:+ str_of_nat (length waveforms) +:+ " waveforms"])
           (stderr w)
           (<[bank_name +:+ ".json" := Dump (json_of_waveforms waveforms) None]>
              (output_dir w))).
Proof.
  intros Hclean Hname Hm Hread.
  destruct (fold_outcome_returns (add_file bank_dir) (sorted (glob "*.wav" bank_dir)))
    with (s := @nil (string * list float)) as [wf Hwf].
  { intros x s [Hx [g Hg]]%elem_of_sorted%elem_of_glob.
    unfold add_file, open_path. rewrite Hg.
    destruct (Hclean x g Hg Hx) as [[r|] ->]; eauto. }
  rewrite <- waveforms_of_fold in Hwf.
  assert (wf ≠ []) as Hne.
  { intros ->. pose proof (proj1 (empty_mapping_iff_all_skipped bank_dir) Hwf) as Hall.
    rewrite (Hall name f Hname Hm) in Hread. discriminate. }
  exists wf. split; [done|]. split; [done|].
  rewrite process_bank_eq, Hwf. by destruct wf.
Qed.

Lemma process_bank_writes_witness :
  process_bank "AKWF_hollow" hollow_bank fresh
  = (Return (Some "AKWF_hollow"),
     World ["Processed AKWF_hollow: 1 waveforms"] []
       {["AKWF_hollow.json" := Dump (JObject [("none", JArray [])]) None]}).
Proof.
  destruct (process_bank_writes "AKWF_hollow" hollow_bank "none.wav"
              (Wave {| nchannels := 1; sampwidth := 2; chunksize := 0;
                       data_chunk := [] |}) [] fresh)
    as (wf & Hwf & _ & Hrun); [|reflexivity|reflexivity|reflexivity|].
  - intros n g Hn _. apply elem_of_map_to_list in Hn.
    vm_compute map_to_list in Hn.
    apply elem_of_cons in Hn as [Hn|Hn]; [|by apply elem_of_nil in Hn].
    injection Hn as -> ->. by eexists.
  - rewrite Hrun. vm_compute in Hwf. injection Hwf as <-. reflexivity.
Defined.

Lemma elem_of_dict_set_eq {V} (d : list (string * V)) k v : (k, v) ∈ dict_set d k v.
Proof.
  induction d as [|[k' v'] d IH]; cbn [dict_set]; [left|].
  destruct (String.eqb_spec k' k) as [->|Hne]; [left|by right].
Qed.

Lemma elem_of_dict_set_ne {V} (d : list (string * V)) k v k' v' :
  (k', v') ∈ d → k' ≠ k → (k', v') ∈ dict_set d k v.
Proof.
  intros Hin Hne. induction d as [|[k0 v0] d IH]; cbn [dict_set].
  { by apply elem_of_nil in Hin. }
  apply elem_of_cons in Hin as [[= <- <-]|Hin].
  - rewrite (proj2 (String.eqb_neq k' k)) by done. left.
  - destruct (String.eqb k0 k); right; auto.
Qed.

(** An entry stays in the mapping while no later file takes its key. *)
Lemma fold_add_file_keeps bank_dir k v xs : ∀ s waveforms,
  fold_outcome (add_file bank_dir) xs s = Return waveforms →
  (k, v) ∈ s →
  (∀ x, x ∈ xs → included bank_dir x = true → stem x ≠ k) →
  (k, v) ∈ waveforms.
Proof.
  induction xs as [|x xs IH]; intros s wf; simpl.
  { by intros [= <-]. }
  intros Hfold Hin Hother. unfold add_file at 1 in Hfold.
  assert (∀ y, y ∈ xs → included bank_dir y = true → stem y ≠ k) as Hrest
    by (intros; apply Hother; [by right|done]).
  destruct (read_wav (open_path bank_dir x)) as [[samples|]|e] eqn:Hx; [| |done].
  - apply (IH _ _ Hfold); [|done].
    apply elem_of_dict_set_ne; [done|]. apply not_eq_sym, Hother; [left|].
    unfold included. by rewrite Hx.
  - by apply (IH _ _ Hfold).
Qed.

(** X7: the mapping holds, under the stem of each file that gave samples,
    the samples of that file (for the file named [.wav], provided
    [.wav.wav] does not take its key). *)
Theorem mapping_holds_samples (bank_dir : gmap string file) waveforms
    name f samples :
  waveforms_of bank_dir = Return waveforms →
  bank_dir !! name = Some f → fnmatch "*.wav" name = true →
  read_wav f = Return (Some samples) →
  (name = ".wav" → included bank_dir ".wav.wav" = false) →
  (stem name, samples) ∈ waveforms.
Proof.
  intros Hwf Hname Hm Hread Hdot. rewrite waveforms_of_fold in Hwf.
  pose proof (sorted_StronglySorted (glob "*.wav" bank_dir)) as Hsorted.
  pose proof (NoDup_sorted_glob "*.wav" bank_dir) as Hnd.
  assert (∀ x, x ∈ sorted (glob "*.wav" bank_dir) → fnmatch "*.wav" x = true)
    as Hall by (intros x [? _]%elem_of_sorted%elem_of_glob; done).
  assert (name ∈ sorted (glob "*.wav" bank_dir)) as Hin.
  { rewrite elem_of_sorted, elem_of_glob. eauto. }
  apply list_elem_of_split in Hin as (l1 & l2 & Hsplit).
  rewrite Hsplit in Hwf, Hsorted, Hnd, Hall.
  rewrite fold_outcome_app in Hwf.
  destruct (fold_outcome (add_file bank_dir) l1 []) as [s1|e]; [|done].
  simpl in Hwf. unfold add_file at 1, open_path in Hwf.
  rewrite Hname, Hread in Hwf.
  apply (fold_add_file_keeps _ _ _ _ _ _ Hwf); [apply elem_of_dict_set_eq|].
  intros x Hx Hincl Hstem.
  assert (fnmatch "*.wav" x = true) as Hmx.
  { apply Hall. rewrite elem_of_app, elem_of_cons. auto. }
  apply NoDup_app in Hnd as (_ & _ & Hnd2).
  apply NoDup_cons in Hnd2 as [Hnotin _].
  apply StronglySorted_app_1_r, StronglySorted_cons in Hsorted as [Hle _].
  rewrite Forall_forall in Hle. specialize (Hle x Hx).
  destruct (stem_wav_collision x name Hmx Hm Hstem) as [->|[[-> ->]|[-> ->]]].
  - done.
  - vm_compute in Hle. discriminate.
  - rewrite Hdot in Hincl; done.
Qed.

Lemma mapping_holds_samples_witness :
  ("a", [0.999969%float; (-1)%float])
    ∈ [("a", [0.999969%float; (-1)%float]); ("b", [0.999969%float; (-1)%float])].
Proof.
  apply (mapping_holds_samples ordered_bank _ "a.wav" (Wave two_frames));
    [vm_compute; reflexivity|reflexivity|reflexivity|vm_compute; reflexivity
    |discriminate].
Defined.

(** ** [main]: the files and lines of a run *)

Lemma run_banks_outcome_indep entries banks : ∀ bank_names w w',
  (run_banks entries banks bank_names w).1
  = (run_banks entries banks bank_names w').1.
Proof.
  induction banks as [|bank banks IH]; intros bank_names w w'; simpl; [done|].
  destruct (bank_outcome entries bank) as [[|kv wf]|e]; [apply IH|apply IH|done].
Qed.

Lemma run_banks_output entries banks : ∀ bank_names w,
  output_dir (run_banks entries banks bank_names w).2
  = apply_writes (bank_writes entries banks) (output_dir w).
Proof.
  induction banks as [|bank banks IH]; intros bank_names w; simpl; [done|].
  destruct (bank_outcome entries bank) as [[|kv wf]|e]; [apply IH| |done].
  rewrite IH. done.
Qed.

Lemma apply_writes_app l1 l2 dir :
  apply_writes (l1 ++ l2) dir = apply_writes l2 (apply_writes l1 dir).
Proof. apply fold_left_app. Qed.

(** A file holds what was written to it last, or what it held before. *)
Lemma lookup_apply_writes writes : ∀ dir k,
  apply_writes writes dir !! k
  = match apply_writes writes ∅ !! k with
    | Some d => Some d
    | None => dir !! k
    end.
Proof.
  induction writes as [|[a d] writes IH]; intros dir k.
  { cbn. by rewrite lookup_empty. }
  cbn [apply_writes fold_left fst snd].
  fold (apply_writes writes (<[a := d]> dir)).
  fold (apply_writes writes (<[a := d]> (∅ : gmap string json_dump))).
  rewrite (IH (<[a := d]> dir)), (IH (<[a := d]> ∅)).
  destruct (apply_writes writes ∅ !! k); [done|].
  destruct (decide (a = k)) as [->|Hne].
  - by rewrite !lookup_insert_eq.
  - by rewrite !lookup_insert_ne, lookup_empty.
Qed.

Lemma apply_writes_idem writes dir :
  apply_writes writes (apply_writes writes dir) = apply_writes writes dir.
Proof.
  apply map_eq. intros k.
  rewrite (lookup_apply_writes writes (apply_writes writes dir)).
  rewrite (lookup_apply_writes writes dir).
  by destruct (apply_writes writes ∅ !! k).
Qed.

(** All a run does to the output directory is a list of writes that does
    not depend on what the directory held. *)
Lemma main_output argv fs :
  ∃ writes, ∀ w,
    output_dir (main argv fs w).2 = apply_writes writes (output_dir w).
Proof.
  destruct (fs (work_dir_of argv)) as [entries|] eqn:Hfs.
  2:{ exists []. intros w. by rewrite main_eq, Hfs. }
  destruct (sorted (glob "AKWF_*" entries)) as [|b bs] eqn:Hbanks.
  { exists []. intros w. by rewrite main_eq, Hfs, Hbanks. }
  destruct (run_banks entries (b :: bs) [] fresh) as [[names|e] w0] eqn:Hfresh.
  - exists (bank_writes entries (b :: bs)
            ++ [("manifest.json", Dump (manifest names) (Some 2%nat))]).
    intros w. rewrite main_eq, Hfs, Hbanks.
    pose proof (run_banks_outcome_indep entries (b :: bs) [] w fresh) as Hsame.
    pose proof (run_banks_output entries (b :: bs) [] w) as Hout.
    rewrite Hfresh in Hsame.
    destruct (run_banks entries (b :: bs) [] w) as [o w1].
    simpl in Hsame, Hout. subst o. simpl.
    by rewrite apply_writes_app, Hout.
  - exists (bank_writes entries (b :: bs)).
    intros w. rewrite main_eq, Hfs, Hbanks.
    pose proof (run_banks_outcome_indep entries (b :: bs) [] w fresh) as Hsame.
    pose proof (run_banks_output entries (b :: bs) [] w) as Hout.
    rewrite Hfresh in Hsame.
    destruct (run_banks entries (b :: bs) [] w) as [o w1].
    simpl in Hsame, Hout. by subst o.
Qed.

(** How a run ends does not depend on what the streams and the output
    directory held. *)
Lemma main_outcome_indep argv fs w w' :
  (main argv fs w).1 = (main argv fs w').1.
Proof.
  rewrite !main_eq.
  destruct (fs (work_dir_of argv)) as [entries|]; [|done].
  destruct (sorted (glob "AKWF_*" entries)) as [|b bs]; [done|].
  generalize (b :: bs). intros banks.
  pose proof (run_banks_outcome_indep entries banks [] w w') as Hsame.
  destruct (run_banks entries banks [] w) as [o1 w1].
  destruct (run_banks entries banks [] w') as [o2 w2].
  cbn [fst] in Hsame. subst o2. by destruct o1.
Qed.

(** X10: a second run over the same tree ends the same way and leaves the
    output directory as the first run left it, whether the run returns,
    stops on a fatal report or on a bad file. *)
Theorem rerun_changes_nothing argv fs w :
  let w1 := (main argv fs w).2 in
  (main argv fs w1).1 = (main argv fs w).1
  ∧ output_dir (main argv fs w1).2 = output_dir w1.
Proof.
  intros w1. split; [apply main_outcome_indep|].
  destruct (main_output argv fs) as [writes Hwrites].
  unfold w1. rewrite (Hwrites (main argv fs w).2), (Hwrites w).
  apply apply_writes_idem.
Qed.

(** X9: a run changes no file of the output directory other than
    [manifest.json] and files named [AKWF_....json]; in particular it
    removes nothing. *)
Theorem main_touches_only_its_files argv fs w k :
  k ≠ "manifest.json" →
  (∀ bank, fnmatch "AKWF_*" bank = true → k ≠ bank +:+ ".json") →
  output_dir (main argv fs w).2 !! k = output_dir w !! k.
Proof.
  intros Hman Hbank. rewrite main_eq.
  destruct (fs (work_dir_of argv)) as [entries|]; [|done].
  destruct (sorted (glob "AKWF_*" entries)) as [|b bs] eqn:Hbanks; [done|].
  destruct (run_banks entries (b :: bs) [] w) as [o w'] eqn:Hrun.
  destruct (run_banks_frame _ _ _ _ _ _ Hrun) as (_ & _ & Hk).
  assert (output_dir w' !! k = output_dir w !! k) as Hsame.
  { apply Hk. intros bank Hin _. apply Hbank.
    rewrite <- Hbanks, elem_of_sorted, elem_of_glob in Hin. tauto. }
  destruct o as [names|e]; simpl; [|done].
  by rewrite lookup_insert_ne.
Qed.

Lemma main_touches_only_its_files_witness :
  output_dir (main ["convert.py"; "waves"] example_fs used).2 !! "index.json"
  = Some (Dump (JString "kept") None).
Proof.
  rewrite (main_touches_only_its_files ["convert.py"; "waves"] example_fs used);
    [reflexivity|discriminate|].
  intros bank [rest ->]%fnmatch_AKWF. discriminate.
Defined.

(** X12: the exit status is 0 or 1, and it tells what became of the
    manifest: with 0 a manifest was written, with 1 [manifest.json] is what
    it was before the run. *)
Theorem exit_status_and_manifest argv fs w :
  ((run argv fs w).1 = 0
   ∧ ∃ bank_names,
       output_dir (run argv fs w).2 !! "manifest.json"
       = Some (Dump (manifest bank_names) (Some 2%nat)))
  ∨ ((run argv fs w).1 = 1
     ∧ output_dir (run argv fs w).2 !! "manifest.json"
       = output_dir w !! "manifest.json").
Proof.
  unfold run. rewrite main_eq.
  destruct (fs (work_dir_of argv)) as [entries|]; [|by right].
  destruct (sorted (glob "AKWF_*" entries)) as [|b bs] eqn:Hbanks; [by right|].
  destruct (run_banks entries (b :: bs) [] w) as [[names|e] w'] eqn:Hrun.
  - left. split; [done|]. exists names. apply lookup_insert_eq.
  - right. destruct (run_banks_frame _ _ _ _ _ _ Hrun) as (_ & Herr & Hk).
    split.
    + apply (read_error_status (A:=unit)). by apply Herr.
    + apply Hk. intros bank Hin _. apply not_eq_sym, bank_json_not_manifest.
      rewrite <- Hbanks, elem_of_sorted, elem_of_glob in Hin. tauto.
Qed.

Lemma banks_written_keeps entries bank waveforms banks : ∀ w,
  bank_outcome entries bank = Return waveforms →
  output_dir w !! (bank +:+ ".json")
    = Some (Dump (json_of_waveforms waveforms) None) →
  output_dir (banks_written entries banks w) !! (bank +:+ ".json")
    = Some (Dump (json_of_waveforms waveforms) None).
Proof.
  induction banks as [|b banks IH]; intros w Hbank Hw; simpl; [done|].
  destruct (bank_outcome entries b) as [[|kv wf]|e] eqn:Hb; try by apply IH.
  apply IH; [done|]. simpl.
  destruct (decide (b = bank)) as [->|Hne].
  - rewrite Hbank in Hb. injection Hb as ->. apply lookup_insert_eq.
  - rewrite lookup_insert_ne; [done|]. by intros ?%json_name_inj.
Qed.

Lemma banks_written_lookup entries bank kv waveforms banks : ∀ w,
  bank ∈ banks →
  bank_outcome entries bank = Return (kv :: waveforms) →
  output_dir (banks_written entries banks w) !! (bank +:+ ".json")
    = Some (Dump (json_of_waveforms (kv :: waveforms)) None).
Proof.
  induction banks as [|b banks IH]; intros w Hin Hbank.
  { by apply elem_of_nil in Hin. }
  destruct (decide (b = bank)) as [->|Hne].
  - simpl. rewrite Hbank. apply banks_written_keeps; [done|].
    apply lookup_insert_eq.
  - apply elem_of_cons in Hin as [->|Hin]; [done|]. simpl.
    destruct (bank_outcome entries b) as [[|kv' wf']|e]; by apply IH.
Qed.

(** X8: after a run that went through, every bank the manifest lists has
    its file in the output directory: [<bank>.json] is the compact dump of
    the non-empty mapping of that bank directory. *)
Theorem manifest_banks_have_files argv fs entries w bank :
  fs (work_dir_of argv) = Some entries →
  glob "AKWF_*" entries ≠ [] →
  reads_cleanly entries →
  bank ∈ filter (λ b, produces entries b = true) (sorted (glob "AKWF_*" entries)) →
  output_dir (main argv fs w).2 !! "manifest.json"
    = Some (Dump (manifest (filter (λ b, produces entries b = true)
                              (sorted (glob "AKWF_*" entries)))) (Some 2%nat))
  ∧ ∃ files waveforms,
      entries !! bank = Some (Directory files)
      ∧ waveforms_of files = Return waveforms
      ∧ waveforms ≠ []
      ∧ output_dir (main argv fs w).2 !! (bank +:+ ".json")
        = Some (Dump (json_of_waveforms waveforms) None).
Proof.
  intros Hfs Hglob Hclean [Hp Hin]%list_elem_of_filter.
  rewrite (main_returns argv fs entries w Hfs Hglob Hclean).
  split; [apply lookup_insert_eq|].
  pose proof Hin as [Hm _]%elem_of_sorted%elem_of_glob.
  unfold produces in Hp.
  destruct (bank_outcome entries bank) as [[|kv wf]|e] eqn:Hbank; try done.
  pose proof Hbank as Hfiles. unfold bank_outcome in Hfiles.
  destruct (entries !! bank) as [[|files]|] eqn:Hentry; try done.
  exists files, (kv :: wf). split; [done|]. split; [done|]. split; [done|].
  cbn [snd finished output_dir].
  rewrite lookup_insert_ne
    by (apply not_eq_sym; by apply bank_json_not_manifest).
  by apply banks_written_lookup.
Qed.

Lemma manifest_banks_have_files_witness :
  output_dir (main ["convert.py"; "waves"] example_fs fresh).2 !! "AKWF_test.json"
  = Some (Dump (JObject [("a", JArray [JFloat 0.999969; JFloat (-1)])]) None).
Proof.
  destruct (manifest_banks_have_files ["convert.py"; "waves"] example_fs
              example_root fresh "AKWF_test")
    as (_ & files & wf & Hentry & Hwf & _ & Hfile);
    [reflexivity|vm_compute; discriminate
    |apply reads_cleanlyb_spec; vm_compute; reflexivity
    |vm_compute; left|].
  transitivity (Some (Dump (json_of_waveforms wf) None)); [exact Hfile|].
  injection Hentry as <-. vm_compute in Hwf. injection Hwf as <-. reflexivity.
Defined.

Lemma banks_written_streams entries banks : ∀ w,
  stdout (banks_written entries banks w)
    = stdout w
      ++ map (progress_line entries) (filter (λ b, produces entries b = true) banks)
  ∧ stderr (banks_written entries banks w) = stderr w.
Proof.
  induction banks as [|b banks IH]; intros w; simpl.
  { by rewrite app_nil_r. }
  rewrite filter_cons.
  destruct (bank_outcome entries b) as [[|kv wf]|e] eqn:Hb.
  - rewrite decide_False by (unfold produces; by rewrite Hb). apply IH.
  - rewrite decide_True by (unfold produces; by rewrite Hb).
    destruct (IH (bank_written b (kv :: wf) w)) as [-> ->].
    split; [|done]. cbn [bank_written stdout map].
    unfold progress_line at 2. rewrite Hb. by rewrite <- app_assoc.
  - rewrite decide_False by (unfold produces; by rewrite Hb). apply IH.
Qed.

(** X11: a run that goes through prints one progress line per bank of the
    manifest, in the order of the manifest, then the summary line with the
    number of those banks, and nothing on [stderr]. *)
Theorem stdout_of_a_run argv fs entries w :
  fs (work_dir_of argv) = Some entries →
  glob "AKWF_*" entries ≠ [] →
  reads_cleanly entries →
  let banks :=
    filter (λ b, produces entries b = true) (sorted (glob "AKWF_*" entries)) in
  stdout (main argv fs w).2
    = stdout w ++ map (progress_line entries) banks
        ++ ["Generated " +:+ str_of_nat (length banks)
              +:+ " bank files and manifest.json"]
  ∧ stderr (main argv fs w).2 = stderr w.
Proof.
  intros Hfs Hglob Hclean banks.
  rewrite (main_returns argv fs entries w Hfs Hglob Hclean).
  cbn [snd finished stdout stderr].
  destruct (banks_written_streams entries (sorted (glob "AKWF_*" entries)) w)
    as [-> ->].
  by rewrite <- app_assoc.
Qed.

Lemma stdout_of_a_run_witness :
  stdout (main ["convert.py"; "waves"] example_fs fresh).2
  = ["Processed AKWF_test: 1 waveforms"; "Generated 1 bank files and manifest.json"].
Proof.
  destruct (stdout_of_a_run ["convert.py"; "waves"] example_fs example_root fresh)
    as [Hout _];
    [reflexivity|vm_compute; discriminate
    |apply reads_cleanlyb_spec; vm_compute; reflexivity|].
  rewrite Hout. vm_compute. reflexivity.
Defined.

Lemma fold_outcome_raise_inv {A S} (g : A → S → outcome S) xs : ∀ s e,
  fold_outcome g xs s = Raise e → ∃ x s', x ∈ xs ∧ g x s' = Raise e.
Proof.
  induction xs as [|x xs IH]; intros s e; simpl; [done|].
  destruct (g x s) as [s'|e'] eqn:Hx.
  - intros (y & s1 & Hy & Hraise)%IH. exists y, s1. split; [by right|done].
  - intros [= <-]. exists x, s. split; [left|done].
Qed.

Lemma fold_outcome_return_inv {A S} (g : A → S → outcome S) xs : ∀ s s',
  fold_outcome g xs s = Return s' →
  ∀ x, x ∈ xs → ∃ s1 s2, g x s1 = Return s2.
Proof.
  induction xs as [|x xs IH]; intros s s' Hfold y Hy.
  { by apply elem_of_nil in Hy. }
  simpl in Hfold. destruct (g x s) as [s1|e] eqn:Hx; [|done].
  apply elem_of_cons in Hy as [->|Hy]; [eauto|]. by eapply IH.
Qed.

Lemma fold_add_file_grows bank_dir xs : ∀ s waveforms,
  fold_outcome (add_file bank_dir) xs s = Return waveforms →
  waveforms = s
  ∨ ∃ x samples, x ∈ xs ∧ read_wav (open_path bank_dir x) = Return (Some samples).
Proof.
  induction xs as [|x xs IH]; intros s wf; simpl.
  { intros [= <-]. by left. }
  unfold add_file at 1.
  destruct (read_wav (open_path bank_dir x)) as [[samples|]|e] eqn:Hx; [| |done].
  - intros _. right. exists x, samples. split; [left|done].
  - intros [->|(y & samples & Hy & Hread)]%IH; [by left|].
    right. exists y, samples. split; [by right|done].
Qed.

(** With no failing read and one file that gives samples the mapping is
    there and is not empty. *)
Lemma waveforms_of_nonempty (bank_dir : gmap string file) name f samples :
  (∀ n g, bank_dir !! n = Some g → fnmatch "*.wav" n = true →
          ∃ r, read_wav g = Return r) →
  bank_dir !! name = Some f → fnmatch "*.wav" name = true →
  read_wav f = Return (Some samples) →
  ∃ kv waveforms, waveforms_of bank_dir = Return (kv :: waveforms).
Proof.
  intros Hclean Hname Hm Hread. rewrite waveforms_of_fold.
  destruct (fold_outcome_returns (add_file bank_dir) (sorted (glob "*.wav" bank_dir)))
    with (s := @nil (string * list float)) as [wf Hwf].
  { intros x s [Hx [g Hg]]%elem_of_sorted%elem_of_glob.
    unfold add_file, open_path. rewrite Hg.
    destruct (Hclean x g Hg Hx) as [[r|] ->]; eauto. }
  rewrite Hwf. destruct wf as [|kv wf]; [|by exists kv, wf].
  rewrite <- waveforms_of_fold in Hwf.
  pose proof (proj1 (empty_mapping_iff_all_skipped bank_dir) Hwf) as Hall.
  rewrite (Hall name f Hname Hm) in Hread. discriminate.
Qed.

(** X5: how [process_bank] ends is decided by the [*.wav] files of the
    directory: it returns [None] exactly when [read_wav] skips every one of
    them (or there is none), it raises exactly when the read of one of them
    raises, and it returns the bank name exactly when no read raises and one
    of them gives samples. *)
Theorem process_bank_outcomes (bank_name : string) (bank_dir : gmap string file) w :
  ((process_bank bank_name bank_dir w).1 = Return None
   ↔ ∀ name f, bank_dir !! name = Some f → fnmatch "*.wav" name = true →
               read_wav f = Return None)
  ∧ ((∃ e, (process_bank bank_name bank_dir w).1 = Raise e)
     ↔ ∃ name f e, bank_dir !! name = Some f ∧ fnmatch "*.wav" name = true
                   ∧ read_wav f = Raise e)
  ∧ ((process_bank bank_name bank_dir w).1 = Return (Some bank_name)
     ↔ (∀ name f, bank_dir !! name = Some f → fnmatch "*.wav" name = true →
                  ∃ r, read_wav f = Return r)
       ∧ ∃ name f samples, bank_dir !! name = Some f
                           ∧ fnmatch "*.wav" name = true
                           ∧ read_wav f = Return (Some samples)).
Proof.
  assert (∀ x, x ∈ sorted (glob "*.wav" bank_dir) →
            fnmatch "*.wav" x = true
            ∧ ∃ f, bank_dir !! x = Some f ∧ open_path bank_dir x = f) as Hfiles.
  { intros x [Hm [f Hf]]%elem_of_sorted%elem_of_glob. split; [done|].
    exists f. split; [done|]. unfold open_path. by rewrite Hf. }
  split; [|split].
  - rewrite <- empty_mapping_iff_all_skipped, process_bank_eq.
    destruct (waveforms_of bank_dir) as [[|kv wf]|e]; simpl; split; done.
  - rewrite process_bank_eq. split.
    + intros [e He].
      destruct (waveforms_of bank_dir) as [[|kv wf]|e'] eqn:Hwf; try done.
      rewrite waveforms_of_fold in Hwf.
      apply fold_outcome_raise_inv in Hwf as (x & s & Hx & Hraise).
      destruct (Hfiles x Hx) as (Hm & f & Hf & Hopen).
      unfold add_file in Hraise. rewrite Hopen in Hraise.
      destruct (read_wav f) as [[?|]|e1] eqn:Hread; try done.
      by exists x, f, e1.
    + intros (name & f & e & Hname & Hm & Hread).
      destruct (fold_outcome_raises (add_file bank_dir)
                  (sorted (glob "*.wav" bank_dir)) name) with (s := @nil (string * list float))
        as [e' He'].
      * rewrite elem_of_sorted, elem_of_glob. eauto.
      * intros s. exists e. unfold add_file, open_path. by rewrite Hname, Hread.
      * rewrite <- waveforms_of_fold in He'. rewrite He'. by exists e'.
  - rewrite process_bank_eq. split.
    + intros Hret.
      destruct (waveforms_of bank_dir) as [[|kv wf]|e] eqn:Hwf; try done.
      rewrite waveforms_of_fold in Hwf. split.
      * intros name f Hname Hm.
        destruct (fold_outcome_return_inv _ _ _ _ Hwf name) as (s1 & s2 & Hturn).
        { rewrite elem_of_sorted, elem_of_glob. eauto. }
        unfold add_file, open_path in Hturn. rewrite Hname in Hturn.
        destruct (read_wav f) as [r|e]; [by exists r|done].
      * apply fold_add_file_grows in Hwf as [?|(x & samples & Hx & Hread)]; [done|].
        destruct (Hfiles x Hx) as (Hm & f & Hf & Hopen).
        rewrite Hopen in Hread. by exists x, f, samples.
    + intros [Hclean (name & f & samples & Hname & Hm & Hread)].
      destruct (waveforms_of_nonempty bank_dir name f samples
                  Hclean Hname Hm Hread) as (kv & wf & Hwf).
      by rewrite Hwf.
Qed.

(** ** The working directory as the script prints it *)

(** [str(Path(...))] drops a trailing slash, a leading [./] and doubled
    slashes, and is never empty. *)
Example str_Path_examples :
  map str_Path ["nowhere/"; "./empty"; "a//b/./c/"; ""; "."; "/"; "//a"; "///a"; "a/.."]
  = ["nowhere"; "empty"; "a/b/c"; "."; "."; "/"; "//a"; "/a"; "a/.."].
Proof. vm_compute. reflexivity. Qed.

(** The fatal report names the directory as pathlib writes it. *)
Example fatal_report_names_the_path :
  run ["convert.py"; "nowhere/"] example_fs fresh
  = (1, World [] ["Error: Directory nowhere not found"] ∅)
  ∧ (run ["convert.py"; "./waves//"] example_fs fresh).1 = 0.
Proof. split; vm_compute; reflexivity. Qed.

(** C10 as stated fails: in [bad_root] an entry matches [AKWF_*] and no
    group produces a non-empty output mapping (the only bank produces no
    mapping at all: the read of its file raises), yet the run ends with
    status 1 and writes no manifest. *)
Lemma no_mapping_and_no_manifest :
  fnmatch "AKWF_*" "AKWF_bad" = true
  ∧ bad_root !! "AKWF_bad" = Some (Directory {["x.wav" := Wave eight_bit]})
  ∧ (∀ bank, produces bad_root bank = false)
  ∧ (run ["convert.py"; "bad"] example_fs fresh).1 = 1
  ∧ output_dir (run ["convert.py"; "bad"] example_fs fresh).2 !! "manifest.json"
    = None
  ∧ stdout (run ["convert.py"; "bad"] example_fs fresh).2 = [].
Proof.
  split; [reflexivity|]. split; [reflexivity|]. split.
  - intros bank. unfold produces, bank_outcome.
    destruct (decide (bank = "AKWF_bad")) as [->|Hne]; [vm_compute; reflexivity|].
    unfold bad_root. by rewrite lookup_singleton_ne.
  - repeat split; vm_compute; reflexivity.
Qed.
